(** * tagpr: the layered configuration resolver of [config.go]

    A shallow embedding of [config.go] and the properties of its reload
    and write paths.  The process environment, the file system and the
    [gitconfig] package are outside the file; they are an interface
    ([Externals]) over an abstract world, and every call the resolver
    makes to them is recorded as an [event]. *)

From Stdlib Require Import String Ascii List Bool NArith.
From stdpp Require Import base option list strings gmap.

Open Scope string_scope.

(** ** Values of the Go program *)

(** Go's [error] values.  [NumError] is what [strconv] returns for a
    text it cannot parse ([&NumError{Func, Num, ErrSyntax}]); every
    other error comes from the operating system or from [gitconfig]. *)
Inductive error : Type :=
| NumError (func num : string)
| ExternalError (msg : string).

(** A Go result pair [(v, err)]: the value is only read when [err] is nil. *)
Inductive result (A : Type) : Type :=
| Ok (a : A)
| Err (e : error).
Arguments Ok {A} a.
Arguments Err {A} e.

(** [type configSource int], with the three [iota] constants. *)
Inductive configSource : Type := srcEnv | srcConfigFile | srcDetect.

Record configValue : Type := ConfigValue {
  value : string;
  source : configSource
}.

(** [gitconfig.Config], as far as [newConfig] fills it. *)
Record gitconfig_Config : Type := GitConfig {
  GitPath : string;
  File : string
}.

(** [type config struct]: the pointer fields are options, nil is [None]. *)
Record config : Type := Config {
  releaseBranch : option configValue;
  versionFile : option configValue;
  command : option configValue;
  template : option configValue;
  vPrefix : option bool;
  conf : string;
  gitconfig : gitconfig_Config
}.

#[global] Instance error_eq_dec : EqDecision error.
Proof. solve_decision. Defined.
#[global] Instance configSource_eq_dec : EqDecision configSource.
Proof. solve_decision. Defined.
#[global] Instance configValue_eq_dec : EqDecision configValue.
Proof. solve_decision. Defined.

(** ** Constants *)

Definition nl : string := String "010"%char EmptyString.
Definition dq : string := String "034"%char EmptyString.

Definition defaultConfigFile : string := ".tagpr".

Definition defaultConfigContent : string :=
  String.concat nl [
    "# config file for the tagpr in git config format";
    "# The tagpr generates the initial configuration, which you can rewrite to suit your environment.";
    "# CONFIGURATIONS:";
    "#   tagpr.releaseBranch";
    "#       Generally, it is " ++ dq ++ "main." ++ dq ++ " It is the branch for releases. The pcpr tracks this branch,";
    "#       creates or updates a pull request as a release candidate, or tags when they are merged.";
    "#";
    "#   tagpr.versionFile";
    "#       Versioning file containing the semantic version needed to be updated at release.";
    "#       It will be synchronized with the " ++ dq ++ "git tag" ++ dq ++ ".";
    "#       Often this is a meta-information file such as gemspec, setup.cfg, package.json, etc.";
    "#       Sometimes the source code file, such as version.go or Bar.pm, is used.";
    "#       If you do not want to use versioning files but only git tags, specify the " ++ dq ++ "-" ++ dq ++ " string here.";
    "#       You can specify multiple version files by comma separated strings.";
    "#";
    "#   tagpr.vPrefix";
    "#       Flag whether or not v-prefix is added to semver when git tagging. (e.g. v1.2.3 if true)";
    "#       This is only a tagging convention, not how it is described in the version file.";
    "#";
    "#   tagpr.command (Optional)";
    "#       Command to change files just before release.";
    "#";
    "#   tagpr.tmplate (Optional)";
    "#       Pull request template in go template format";
    "[tagpr]";
    ""
  ].

Definition envReleaseBranch : string := "TAGPR_RELEASE_BRANCH".
Definition envVersionFile : string := "TAGPR_VERSION_FILE".
Definition envVPrefix : string := "TAGPR_VPREFIX".
Definition envCommand : string := "TAGPR_COMMAND".
Definition envTemplate : string := "TAGPR_TEMPLATE".
Definition configReleaseBranch : string := "tagpr.releaseBranch".
Definition configVersionFile : string := "tagpr.versionFile".
Definition configVPrefix : string := "tagpr.vPrefix".
Definition configCommand : string := "tagpr.command".
Definition configTemplate : string := "tagpr.template".

(** ** The two [strconv] functions the resolver calls

    [strconv.ParseBool] and [strconv.FormatBool] of the Go standard
    library, case for case. *)
Definition ParseBool (str : string) : result bool :=
  if existsb (String.eqb str) ["1"; "t"; "T"; "true"; "TRUE"; "True"] then Ok true
  else if existsb (String.eqb str) ["0"; "f"; "F"; "false"; "FALSE"; "False"] then Ok false
  else Err (NumError "ParseBool" str).

Definition FormatBool (b : bool) : string :=
  if b then "true" else "false".

(** [github.Bool] allocates a bool and returns the pointer to it. *)
Definition github_Bool (b : bool) : option bool := Some b.

(** ** [configValue] accessors *)

Definition String_ (cv : configValue) : string :=
  if String.eqb (value cv) "-" then "" else value cv.

Definition Empty (cv : configValue) : bool :=
  String.eqb (String_ cv) "".

(** ** The outside world *)

(** One entry per call that leaves the resolver. *)
Inductive event : Type :=
| EvGetenv (name : string)
| EvGet (key : string)
| EvBool (key : string)
| EvExists (path : string)
| EvRemoveAll (path : string)
| EvWriteFile (path content : string) (perm : N)
| EvDo (args : list string).

#[global] Instance event_eq_dec : EqDecision event.
Proof. solve_decision. Defined.

(** What [config.go] asks of its collaborators.  Reading the
    environment or the store answers from the world and leaves it as it
    is; removing, writing and [Do] may change it and may fail.
    [exists_] is the package's [exists] helper, which lives in another
    file of the package. *)
Class Externals (World : Type) : Type := {
  os_Getenv : World -> string -> string;
  gitconfig_Get : World -> gitconfig_Config -> string -> result string;
  gitconfig_Bool : World -> gitconfig_Config -> string -> result bool;
  exists_ : World -> string -> bool;
  os_RemoveAll : World -> string -> option error * World;
  os_WriteFile : World -> string -> string -> N -> option error * World;
  gitconfig_Do : World -> gitconfig_Config -> list string -> result string * World
}.

(** ** A monad for Go methods on a [config] pointer

    A method runs on the receiver and the world, returns normally or by
    [return err], and leaves the list of external calls it made. *)
Inductive outcome (A : Type) : Type :=
| Done (a : A)
| Returned (e : error).
Arguments Done {A} a.
Arguments Returned {A} e.

Record machine (World : Type) : Type := Machine {
  m_cfg : config;
  m_world : World
}.
Arguments Machine {World} _ _.
Arguments m_cfg {World} _.
Arguments m_world {World} _.

Record run (World A : Type) : Type := Run {
  r_out : outcome A;
  r_end : machine World;
  r_events : list event
}.
Arguments Run {World A} _ _ _.
Arguments r_out {World A} _.
Arguments r_end {World A} _.
Arguments r_events {World A} _.

Definition M (World A : Type) : Type := machine World -> run World A.

Definition ret {World A} (a : A) : M World A :=
  fun m => Run (Done a) m [].

Definition throw {World A} (e : error) : M World A :=
  fun m => Run (Returned e) m [].

Definition bind {World A B} (c : M World A) (k : A -> M World B) : M World B :=
  fun m =>
    match c m with
    | Run (Returned e) m1 l1 => Run (Returned e) m1 l1
    | Run (Done a) m1 l1 =>
        match k a m1 with
        | Run o m2 l2 => Run o m2 (l1 ++ l2)
        end
    end.

(** [err := f()]: the callee's [return err] becomes a value of the caller. *)
Definition call {World} (c : M World unit) : M World (option error) :=
  fun m =>
    match c m with
    | Run (Returned e) m1 l1 => Run (Done (Some e)) m1 l1
    | Run (Done _) m1 l1 => Run (Done None) m1 l1
    end.

Declare Scope go_scope.
Delimit Scope go_scope with go.
Notation "x <- c ;; k" := (bind c (fun x => k))
  (at level 100, c at next level, right associativity) : go_scope.
Notation "c ;; k" := (bind c (fun _ => k))
  (at level 100, right associativity) : go_scope.

Definition nonempty (s : string) : bool := negb (String.eqb s "").

(** Assignments to the receiver's fields. *)
Definition with_releaseBranch (v : option configValue) (c : config) : config :=
  Config v (versionFile c) (command c) (template c) (vPrefix c) (conf c) (gitconfig c).
Definition with_versionFile (v : option configValue) (c : config) : config :=
  Config (releaseBranch c) v (command c) (template c) (vPrefix c) (conf c) (gitconfig c).
Definition with_command (v : option configValue) (c : config) : config :=
  Config (releaseBranch c) (versionFile c) v (template c) (vPrefix c) (conf c) (gitconfig c).
Definition with_template (v : option configValue) (c : config) : config :=
  Config (releaseBranch c) (versionFile c) (command c) v (vPrefix c) (conf c) (gitconfig c).
Definition with_vPrefix (v : option bool) (c : config) : config :=
  Config (releaseBranch c) (versionFile c) (command c) (template c) v (conf c) (gitconfig c).

Section Resolver.
Context {World : Type} `{Externals World}.

Local Open Scope go_scope.

(** *** Primitive steps *)

Definition assign (f : config -> config) : M World unit :=
  fun m => Run (Done tt) (Machine (f (m_cfg m)) (m_world m)) [].

Definition Getenv (name : string) : M World string :=
  fun m => Run (Done (os_Getenv (m_world m) name)) m [EvGetenv name].

Definition Get (key : string) : M World (result string) :=
  fun m =>
    Run (Done (gitconfig_Get (m_world m) (gitconfig (m_cfg m)) key)) m [EvGet key].

Definition Bool_ (key : string) : M World (result bool) :=
  fun m =>
    Run (Done (gitconfig_Bool (m_world m) (gitconfig (m_cfg m)) key)) m [EvBool key].

Definition exists_conf : M World bool :=
  fun m => Run (Done (exists_ (m_world m) (conf (m_cfg m)))) m [EvExists (conf (m_cfg m))].

Definition RemoveAll_conf : M World (option error) :=
  fun m =>
    let '(err, w) := os_RemoveAll (m_world m) (conf (m_cfg m)) in
    Run (Done err) (Machine (m_cfg m) w) [EvRemoveAll (conf (m_cfg m))].

Definition WriteFile_conf (content : string) (perm : N) : M World (option error) :=
  fun m =>
    let '(err, w) := os_WriteFile (m_world m) (conf (m_cfg m)) content perm in
    Run (Done err) (Machine (m_cfg m) w) [EvWriteFile (conf (m_cfg m)) content perm].

Definition Do (args : list string) : M World (result string) :=
  fun m =>
    let '(r, w) := gitconfig_Do (m_world m) (gitconfig (m_cfg m)) args in
    Run (Done r) (Machine (m_cfg m) w) [EvDo args].

(** *** [func (cfg *config) Reload() error] *)

Definition Reload : M World unit :=
  rb <- Getenv envReleaseBranch ;;
  (if nonempty rb then
     assign (with_releaseBranch (Some (ConfigValue rb srcEnv)))
   else
     r <- Get configReleaseBranch ;;
     match r with
     | Ok out => assign (with_releaseBranch (Some (ConfigValue out srcConfigFile)))
     | Err _ => ret tt
     end) ;;
  rb <- Getenv envVersionFile ;;
  (if nonempty rb then
     assign (with_versionFile (Some (ConfigValue rb srcEnv)))
   else
     r <- Get configVersionFile ;;
     match r with
     | Ok out => assign (with_versionFile (Some (ConfigValue out srcConfigFile)))
     | Err _ => ret tt
     end) ;;
  vp <- Getenv envVPrefix ;;
  (if nonempty vp then
     match ParseBool vp with
     | Err err => throw err
     | Ok b => assign (with_vPrefix (github_Bool b))
     end
   else
     r <- Bool_ configVPrefix ;;
     match r with
     | Ok b => assign (with_vPrefix (github_Bool b))
     | Err _ => ret tt
     end) ;;
  cmd <- Getenv envCommand ;;
  (if nonempty cmd then
     assign (with_command (Some (ConfigValue cmd srcEnv)))
   else
     r <- Get configCommand ;;
     match r with
     | Ok cmd' => assign (with_command (Some (ConfigValue cmd' srcConfigFile)))
     | Err _ => ret tt
     end) ;;
  tmpl <- Getenv envTemplate ;;
  (if nonempty tmpl then
     assign (with_template (Some (ConfigValue tmpl srcEnv)))
   else
     r <- Get configTemplate ;;
     match r with
     | Ok tmpl' => assign (with_template (Some (ConfigValue tmpl' srcConfigFile)))
     | Err _ => ret tt
     end) ;;
  ret tt.

(** *** [func newConfig(gitPath string)], returning the receiver and the error *)

Definition newConfig (gitPath : string) (w : World) : run World unit :=
  Reload (Machine
            (Config None None None None None
                    defaultConfigFile (GitConfig gitPath defaultConfigFile))
            w).

(** *** [func (cfg *config) initializeFile() error] *)

Definition initializeFile : M World unit :=
  err <- RemoveAll_conf ;;
  match err with
  | Some e => throw e
  | None =>
      err <- WriteFile_conf defaultConfigContent 438 ;;
      match err with
      | Some e => throw e
      | None => ret tt
      end
  end.

(** *** [func (cfg *config) set(key, value string) error] *)

Definition set (key value : string) : M World unit :=
  ex <- exists_conf ;;
  (if negb ex then
     err <- call initializeFile ;;
     match err with
     | Some e => throw e
     | None => ret tt
     end
   else ret tt) ;;
  let value := if String.eqb value "" then "-" else value in
  r <- Do [key; value] ;;
  match r with
  | Ok _ => ret tt
  | Err _ =>
      err <- call initializeFile ;;
      match err with
      | Some e => throw e
      | None =>
          r <- Do [key; value] ;;
          match r with
          | Ok _ => ret tt
          | Err e => throw e
          end
      end
  end.

(** *** The three setters *)

Definition SetRelaseBranch (br : string) : M World unit :=
  err <- call (set configReleaseBranch br) ;;
  match err with
  | Some e => throw e
  | None => assign (with_releaseBranch (Some (ConfigValue br srcDetect)))
  end.

Definition SetVersionFile (fpath : string) : M World unit :=
  err <- call (set configVersionFile fpath) ;;
  match err with
  | Some e => throw e
  | None => assign (with_versionFile (Some (ConfigValue fpath srcDetect)))
  end.

Definition SetVPrefix (b : bool) : M World unit :=
  err <- call (set configVPrefix (FormatBool b)) ;;
  match err with
  | Some e => throw e
  | None => assign (with_vPrefix (github_Bool b))
  end.

(** *** Accessors *)

Definition ReleaseBranch (cfg : config) : option configValue := releaseBranch cfg.
Definition VersionFile (cfg : config) : option configValue := versionFile cfg.
Definition Command (cfg : config) : option configValue := command cfg.
Definition Template (cfg : config) : option configValue := template cfg.

End Resolver.

(** ** A simulated world

    One concrete collaborator, for running the resolver: an environment,
    the [.tagpr] file as a finite map from keys to texts (absent when
    [None]), and three ways to fail: a file [git] cannot parse, a
    directory that cannot be written, a [git] binary that does not run. *)
Module Sim.

Record World : Type := MkWorld {
  env : gmap string string;
  file : option (gmap string string);
  broken : bool;
  writable : bool;
  git_runs : bool
}.

Definition getenv (w : World) (name : string) : string :=
  default "" (env w !! name).

Definition get (w : World) (g : gitconfig_Config) (key : string) : result string :=
  if negb (git_runs w) || broken w then Err (ExternalError "git config failed")
  else
    match file w ≫= (.!! key) with
    | Some v => Ok v
    | None => Err (ExternalError "key not found")
    end.

(** The spellings [git config --type=bool] accepts. *)
Definition get_bool (w : World) (g : gitconfig_Config) (key : string) : result bool :=
  match get w g key with
  | Err e => Err e
  | Ok v =>
      if existsb (String.eqb v) ["true"; "yes"; "on"; "1"] then Ok true
      else if existsb (String.eqb v) ["false"; "no"; "off"; "0"] then Ok false
      else Err (ExternalError "bad boolean config value")
  end.

Definition file_exists (w : World) (path : string) : bool :=
  String.eqb path defaultConfigFile && bool_decide (is_Some (file w)).

Definition remove_all (w : World) (path : string) : option error * World :=
  if writable w then
    (None, MkWorld (env w) None false (writable w) (git_runs w))
  else (Some (ExternalError "permission denied"), w).

Definition write_file (w : World) (path content : string) (perm : N)
  : option error * World :=
  if writable w then
    (None, MkWorld (env w) (Some ∅) false (writable w) (git_runs w))
  else (Some (ExternalError "permission denied"), w).

Definition do_ (w : World) (g : gitconfig_Config) (args : list string)
  : result string * World :=
  match args with
  | [key; v] =>
      if negb (git_runs w) || broken w || negb (writable w)
      then (Err (ExternalError "git config failed"), w)
      else (Ok "",
            MkWorld (env w) (Some (<[key := v]> (default ∅ (file w))))
                    false (writable w) (git_runs w))
  | _ => (Err (ExternalError "usage"), w)
  end.

#[global] Instance externals : Externals World := {
  os_Getenv := getenv;
  gitconfig_Get := get;
  gitconfig_Bool := get_bool;
  exists_ := file_exists;
  os_RemoveAll := remove_all;
  os_WriteFile := write_file;
  gitconfig_Do := do_
}.

(** A fresh receiver, as [newConfig] builds it. *)
Definition cfg0 : config :=
  Config None None None None None defaultConfigFile (GitConfig "git" defaultConfigFile).

(** A world where everything works. *)
Definition healthy (e : gmap string string) (f : option (gmap string string)) : World :=
  MkWorld e f false true true.

End Sim.

(** ** Vocabulary of the statements *)

(** The five settings, with the environment variable and the store key
    [Reload] reads for each, and the field it assigns. *)
Inductive setting : Type :=
| sReleaseBranch | sVersionFile | sVPrefix | sCommand | sTemplate.

Definition envName (s : setting) : string :=
  match s with
  | sReleaseBranch => envReleaseBranch
  | sVersionFile => envVersionFile
  | sVPrefix => envVPrefix
  | sCommand => envCommand
  | sTemplate => envTemplate
  end.

Definition configKey (s : setting) : string :=
  match s with
  | sReleaseBranch => configReleaseBranch
  | sVersionFile => configVersionFile
  | sVPrefix => configVPrefix
  | sCommand => configCommand
  | sTemplate => configTemplate
  end.

Inductive resolved : Type :=
| RString (cv : configValue)
| RBool (b : bool).

Definition field (s : setting) (c : config) : option resolved :=
  match s with
  | sReleaseBranch => RString <$> releaseBranch c
  | sVersionFile => RString <$> versionFile c
  | sVPrefix => RBool <$> vPrefix c
  | sCommand => RString <$> command c
  | sTemplate => RString <$> template c
  end.

Definition is_string_setting (s : setting) : bool :=
  match s with sVPrefix => false | _ => true end.

Section Vocabulary.
Context {World : Type} `{Externals World}.

(** Whether the store answers for the setting's key: [Get] for the
    four texts, [Bool] for the v-prefix. *)
Definition store_holds (w : World) (g : gitconfig_Config) (s : setting) : bool :=
  match s with
  | sVPrefix =>
      match gitconfig_Bool w g configVPrefix with Ok _ => true | Err _ => false end
  | _ =>
      match gitconfig_Get w g (configKey s) with Ok _ => true | Err _ => false end
  end.

(** The outcome of one of [Reload]'s four text blocks on a field
    holding [old]. *)
Definition string_outcome (w : World) (g : gitconfig_Config) (s : setting)
    (old : option configValue) : option configValue :=
  if nonempty (os_Getenv w (envName s)) then
    Some (ConfigValue (os_Getenv w (envName s)) srcEnv)
  else
    match gitconfig_Get w g (configKey s) with
    | Ok out => Some (ConfigValue out srcConfigFile)
    | Err _ => old
    end.

(** [Reload] returns early exactly when TAGPR_VPREFIX is non-empty
    and [ParseBool] rejects it. *)
Definition vprefix_malformed (w : World) : bool :=
  nonempty (os_Getenv w envVPrefix) &&
  match ParseBool (os_Getenv w envVPrefix) with Ok _ => false | Err _ => true end.

Definition cfg_after {A} (c : M World A) (m : machine World) : config :=
  m_cfg (r_end (c m)).

Definition world_after {A} (c : M World A) (m : machine World) : World :=
  m_world (r_end (c m)).

(** The first block of [set]: create the file when it is absent. *)
Definition ensure_file : M World unit :=
  (ex <- exists_conf ;;
   if negb ex then
     err <- call initializeFile ;;
     match err with
     | Some e => throw e
     | None => ret tt
     end
   else ret tt)%go.

(** The text [set] hands to the store for [value]. *)
Definition encode (value : string) : string :=
  if String.eqb value "" then "-" else value.

End Vocabulary.

(** ** The three setters *)

(** A call of one of the three setters. *)
Inductive setter : Type :=
| CallSetRelaseBranch (br : string)
| CallSetVersionFile (fpath : string)
| CallSetVPrefix (b : bool).

(** The key and the text the setter passes to [set], and the assignment
    it makes afterwards. *)
Definition setter_key (x : setter) : string :=
  match x with
  | CallSetRelaseBranch _ => configReleaseBranch
  | CallSetVersionFile _ => configVersionFile
  | CallSetVPrefix _ => configVPrefix
  end.

Definition setter_text (x : setter) : string :=
  match x with
  | CallSetRelaseBranch br => br
  | CallSetVersionFile fpath => fpath
  | CallSetVPrefix b => FormatBool b
  end.

Definition setter_assign (x : setter) : config -> config :=
  match x with
  | CallSetRelaseBranch br => with_releaseBranch (Some (ConfigValue br srcDetect))
  | CallSetVersionFile fpath => with_versionFile (Some (ConfigValue fpath srcDetect))
  | CallSetVPrefix b => with_vPrefix (Some b)
  end.

(** ** [Reload] and [set], block by block *)

Section Blocks.
Context {World : Type} `{Externals World}.
Local Open Scope go_scope.

(** One of the four text blocks of [Reload], followed by the rest of
    the function. *)
Definition string_block (s : setting) (upd : option configValue -> config -> config)
    (rest : M World unit) : M World unit :=
  v <- Getenv (envName s) ;;
  (if nonempty v then
     assign (upd (Some (ConfigValue v srcEnv)))
   else
     r <- Get (configKey s) ;;
     match r with
     | Ok out => assign (upd (Some (ConfigValue out srcConfigFile)))
     | Err _ => ret tt
     end) ;;
  rest.

(** The v-prefix block, followed by the rest of the function. *)
Definition vprefix_block (rest : M World unit) : M World unit :=
  vp <- Getenv envVPrefix ;;
  (if nonempty vp then
     match ParseBool vp with
     | Err err => throw err
     | Ok b => assign (with_vPrefix (github_Bool b))
     end
   else
     r <- Bool_ configVPrefix ;;
     match r with
     | Ok b => assign (with_vPrefix (github_Bool b))
     | Err _ => ret tt
     end) ;;
  rest.

(** The calls a text block makes. *)
Definition string_events (w : World) (s : setting) : list event :=
  if nonempty (os_Getenv w (envName s)) then [EvGetenv (envName s)]
  else [EvGetenv (envName s); EvGet (configKey s)].

(** The outcome of the v-prefix block on a field holding [old], when
    the block does not return. *)
Definition bool_outcome (w : World) (g : gitconfig_Config) (old : option bool)
  : option bool :=
  if nonempty (os_Getenv w envVPrefix) then
    match ParseBool (os_Getenv w envVPrefix) with
    | Ok b => Some b
    | Err _ => old
    end
  else
    match gitconfig_Bool w g configVPrefix with
    | Ok b => Some b
    | Err _ => old
    end.

Definition vprefix_events (w : World) : list event :=
  if nonempty (os_Getenv w envVPrefix) then [EvGetenv envVPrefix]
  else [EvGetenv envVPrefix; EvBool configVPrefix].

(** [Reload] in closed form: the outcome, the receiver and the calls. *)
Definition Reload_cfg (c : config) (w : World) : config :=
  let g := gitconfig c in
  Config (string_outcome w g sReleaseBranch (releaseBranch c))
         (string_outcome w g sVersionFile (versionFile c))
         (if vprefix_malformed w then command c
          else string_outcome w g sCommand (command c))
         (if vprefix_malformed w then template c
          else string_outcome w g sTemplate (template c))
         (bool_outcome w g (vPrefix c))
         (conf c) g.

Definition Reload_out (w : World) : outcome unit :=
  if nonempty (os_Getenv w envVPrefix) then
    match ParseBool (os_Getenv w envVPrefix) with
    | Err e => Returned e
    | Ok _ => Done tt
    end
  else Done tt.

Definition Reload_events (w : World) : list event :=
  string_events w sReleaseBranch ++ string_events w sVersionFile ++
  if vprefix_malformed w then [EvGetenv envVPrefix]
  else vprefix_events w ++ string_events w sCommand ++ string_events w sTemplate.

(** The two calls of a completed [initializeFile]. *)
Definition recreation (c : config) : list event :=
  [EvRemoveAll (conf c); EvWriteFile (conf c) defaultConfigContent 438].

(** *** The setters, as one family *)

Definition run_setter (x : setter) : M World unit :=
  match x with
  | CallSetRelaseBranch br => SetRelaseBranch br
  | CallSetVersionFile fpath => SetVersionFile fpath
  | CallSetVPrefix b => SetVPrefix b
  end.

End Blocks.

(** ** The resolver at work in the simulated world *)

Module Scenario.
Import Sim.

(** No file yet, nothing in the environment. *)
Definition fresh : machine World := Machine cfg0 (healthy ∅ None).

(** A release branch detected earlier, then nothing to be found. *)
Definition detected : machine World :=
  Machine (with_releaseBranch (Some (ConfigValue "main" srcDetect)) cfg0)
          (healthy ∅ None).

(** TAGPR_COMMAND is set and the store has another command. *)
Definition command_in_env : machine World :=
  Machine cfg0 (healthy {[envCommand := "make"]} (Some {[configCommand := "rake"]})).

(** TAGPR_COMMAND is set, and TAGPR_VPREFIX is not a boolean. *)
Definition bad_vprefix : machine World :=
  Machine cfg0
    (healthy {[envVPrefix := "notabool"; envCommand := "make"]}
             (Some {[configReleaseBranch := "main"; configVPrefix := "true"]})).

(** TAGPR_VPREFIX is not a boolean, the release branch was detected
    earlier and is nowhere else. *)
Definition bad_vprefix_detected : machine World :=
  Machine (with_releaseBranch (Some (ConfigValue "develop" srcDetect)) cfg0)
          (healthy {[envVPrefix := "notabool"]} None).

(** The file is there but [git] cannot parse it. *)
Definition broken_file : machine World :=
  Machine cfg0 (MkWorld ∅ (Some {["user.name" := "someone"]}) true true true).

(** The file is fine but [git] does not run. *)
Definition no_git : machine World :=
  Machine (with_releaseBranch (Some (ConfigValue "old" srcEnv)) cfg0)
          (MkWorld ∅ (Some ∅) false true false).

(** The store says false for the v-prefix. *)
Definition stored_false : machine World :=
  Machine cfg0 (healthy ∅ (Some {[configVPrefix := "false"]})).

End Scenario.

(** ** Vocabulary for whole runs *)

(** The setting a setter writes. *)
Definition setter_setting (x : setter) : setting :=
  match x with
  | CallSetRelaseBranch _ => sReleaseBranch
  | CallSetVersionFile _ => sVersionFile
  | CallSetVPrefix _ => sVPrefix
  end.

(** The store call [Reload] makes for a setting. *)
Definition store_event (s : setting) : event :=
  match s with
  | sVPrefix => EvBool configVPrefix
  | _ => EvGet (configKey s)
  end.

(** The calls that only read. *)
Definition is_read (ev : event) : bool :=
  match ev with
  | EvGetenv _ | EvGet _ | EvBool _ => true
  | _ => false
  end.

Definition is_Do (ev : event) : bool :=
  match ev with
  | EvDo _ => true
  | _ => false
  end.

Definition count_Do (l : list event) : nat := length (List.filter is_Do l).

(** The calls [set] may make for [key] and [value] on receiver [c]:
    the file is always [conf], what is written to it is always the
    default content with mode 0666, and the store is only ever asked to
    write [key] with the encoded text. *)
Definition set_call (c : config) (key value : string) (ev : event) : Prop :=
  match ev with
  | EvExists p => p = conf c
  | EvRemoveAll p => p = conf c
  | EvWriteFile p t n => p = conf c /\ t = defaultConfigContent /\ n = 438%N
  | EvDo a => a = [key; if String.eqb value "" then "-" else value]
  | _ => False
  end.

(** A method call on the receiver. *)
Inductive method : Type :=
| CallReload
| CallSetter (x : setter).

Section Runs.
Context {World : Type} `{Externals World}.

(** What the store answers for the setting's key, as [Reload] records it. *)
Definition store_answer (w : World) (g : gitconfig_Config) (s : setting)
  : option resolved :=
  match s with
  | sVPrefix =>
      match gitconfig_Bool w g configVPrefix with
      | Ok b => Some (RBool b)
      | Err _ => None
      end
  | _ =>
      match gitconfig_Get w g (configKey s) with
      | Ok out => Some (RString (ConfigValue out srcConfigFile))
      | Err _ => None
      end
  end.

(** What a block of [Reload] finds for its setting: the environment
    first, the store when the variable is empty. *)
Definition found (w : World) (g : gitconfig_Config) (s : setting) : option resolved :=
  if nonempty (os_Getenv w (envName s)) then
    match s with
    | sVPrefix =>
        match ParseBool (os_Getenv w envVPrefix) with
        | Ok b => Some (RBool b)
        | Err _ => None
        end
    | _ => Some (RString (ConfigValue (os_Getenv w (envName s)) srcEnv))
    end
  else store_answer w g s.

(** Whether [Reload] gets as far as the setting's block: the command
    and the template come after the v-prefix check. *)
Definition reached (w : World) (s : setting) : bool :=
  match s with
  | sCommand | sTemplate => negb (vprefix_malformed w)
  | _ => true
  end.

Definition run_method (o : method) : M World unit :=
  match o with
  | CallReload => Reload
  | CallSetter x => run_setter x
  end.

(** A caller making one call after the other on the same receiver,
    whatever each call returns. *)
Fixpoint run_methods (os : list method) (m : machine World) : machine World :=
  match os with
  | [] => m
  | o :: os' => run_methods os' (r_end (run_method o m))
  end.

End Runs.

Module Cases.
Import Sim.

(** Only the store knows the template. *)
Definition template_in_store : machine World :=
  Machine cfg0 (healthy ∅ (Some {[configTemplate := "tmpl.md"]})).

(** TAGPR_VPREFIX says false, the store says true. *)
Definition vprefix_in_env : machine World :=
  Machine cfg0 (healthy {[envVPrefix := "false"]} (Some {[configVPrefix := "true"]})).

(** TAGPR_VERSION_FILE is the hyphen. *)
Definition hyphen_in_env : machine World :=
  Machine cfg0 (healthy {[envVersionFile := "-"]} None).

(** No file, and the directory cannot be written. *)
Definition read_only_dir : machine World :=
  Machine cfg0 (MkWorld ∅ None false false true).

(** The file is there and fine. *)
Definition file_present : machine World :=
  Machine cfg0 (healthy ∅ (Some ∅)).

End Cases.

Arguments nonempty : simpl never.
Arguments ParseBool : simpl never.
Arguments defaultConfigContent : simpl never.


(** ** Proof steps *)

Ltac unfold_go :=
  unfold cfg_after, world_after, string_block, vprefix_block, newConfig,
    SetRelaseBranch, SetVersionFile, SetVPrefix, set, ensure_file, initializeFile,
    call, bind, Getenv, Get, Bool_, exists_conf, RemoveAll_conf, WriteFile_conf,
    Do, assign, ret, throw in *.

Lemma nonempty_false (s : string) : nonempty s = false <-> s = "".
Proof.
  unfold nonempty. destruct (String.eqb_spec s ""); simpl; split; congruence.
Qed.

Lemma nonempty_true (s : string) : nonempty s = true <-> s <> "".
Proof.
  unfold nonempty. destruct (String.eqb_spec s ""); simpl; split; congruence.
Qed.

Section Reload_facts.
Context {World : Type} `{Externals World}.
Implicit Types (m : machine World) (s : setting) (w : World).

Lemma Reload_blocks :
  Reload =
  string_block sReleaseBranch with_releaseBranch
    (string_block sVersionFile with_versionFile
       (vprefix_block
          (string_block sCommand with_command
             (string_block sTemplate with_template (ret tt))))).
Proof. reflexivity. Qed.

Lemma string_block_run s upd (get : config -> option configValue) rest m :
  (forall c, upd (get c) c = c) ->
  string_block s upd rest m =
  let c := m_cfg m in
  let w := m_world m in
  let r := rest (Machine (upd (string_outcome w (gitconfig c) s (get c)) c) w) in
  Run (r_out r) (r_end r) (string_events w s ++ r_events r).
Proof.
  intros Hupd. destruct m as [c w].
  unfold string_block, string_outcome, string_events, bind, Getenv, Get, assign, ret.
  cbn. destruct (nonempty _); cbn.
  - destruct (rest _) as [[?|?] ? ?]; reflexivity.
  - destruct (gitconfig_Get _ _ _); cbn; rewrite ?Hupd;
      destruct (rest _) as [[?|?] ? ?]; reflexivity.
Qed.

Lemma vprefix_block_run rest m :
  vprefix_block rest m =
  let c := m_cfg m in
  let w := m_world m in
  if vprefix_malformed w then
    match ParseBool (os_Getenv w envVPrefix) with
    | Err e => Run (Returned e) m [EvGetenv envVPrefix]
    | Ok _ => Run (Done tt) m []
    end
  else
    let r := rest (Machine (with_vPrefix (bool_outcome w (gitconfig c) (vPrefix c)) c) w) in
    Run (r_out r) (r_end r) (vprefix_events w ++ r_events r).
Proof.
  destruct m as [c w].
  unfold vprefix_block, vprefix_malformed, bool_outcome, vprefix_events,
    bind, Getenv, Bool_, assign, ret, throw, github_Bool.
  cbn. destruct (nonempty _); cbn.
  - destruct (ParseBool _); cbn; [|reflexivity].
    destruct (rest _) as [[?|?] ? ?]; reflexivity.
  - destruct (gitconfig_Bool _ _ _); cbn;
      [|replace (with_vPrefix (vPrefix c) c) with c by (destruct c; reflexivity)];
      destruct (rest _) as [[?|?] ? ?]; reflexivity.
Qed.

Lemma Reload_run m :
  Reload m =
  Run (Reload_out (m_world m))
      (Machine (Reload_cfg (m_cfg m) (m_world m)) (m_world m))
      (Reload_events (m_world m)).
Proof.
  rewrite Reload_blocks.
  rewrite (string_block_run sReleaseBranch with_releaseBranch releaseBranch)
    by (intros []; reflexivity).
  cbn zeta.
  rewrite (string_block_run sVersionFile with_versionFile versionFile)
    by (intros []; reflexivity).
  cbn zeta. rewrite vprefix_block_run. cbn zeta.
  destruct m as [c w]. cbn [m_cfg m_world].
  unfold Reload_out, Reload_cfg, Reload_events, bool_outcome.
  destruct (vprefix_malformed w) eqn:Hmal.
  - unfold vprefix_malformed in Hmal.
    destruct (nonempty _); [|discriminate].
    destruct (ParseBool _); [discriminate|]. destruct c; reflexivity.
  - rewrite (string_block_run sCommand with_command command)
      by (intros []; reflexivity).
    cbn zeta.
    rewrite (string_block_run sTemplate with_template template)
      by (intros []; reflexivity).
    unfold vprefix_malformed in Hmal.
    destruct c; cbn.
    destruct (nonempty _); [destruct (ParseBool _); [|discriminate]|];
      rewrite ?app_nil_r; reflexivity.
Qed.

End Reload_facts.

(** ** Properties of [Reload] *)

Ltac elem_cases H :=
  repeat first
    [ apply elem_of_app in H; destruct H as [H|H]
    | apply elem_of_cons in H; destruct H as [H|H]
    | apply elem_of_nil in H; destruct H ].

Section Reload_claims.
Context {World : Type} `{Externals World}.
Implicit Types (m : machine World) (s : setting) (w : World).

Lemma Reload_world m : world_after Reload m = m_world m.
Proof. unfold world_after. rewrite Reload_run. reflexivity. Qed.

Lemma Reload_cfg_after m : cfg_after Reload m = Reload_cfg (m_cfg m) (m_world m).
Proof. unfold cfg_after. rewrite Reload_run. reflexivity. Qed.

Lemma Reload_returns m :
  r_out (Reload m) = Done tt <-> vprefix_malformed (m_world m) = false.
Proof.
  rewrite Reload_run. cbn. unfold Reload_out, vprefix_malformed.
  destruct (nonempty _); cbn; [|tauto].
  destruct (ParseBool _); split; congruence.
Qed.

Lemma string_outcome_unfound w g s old :
  os_Getenv w (envName s) = "" ->
  (forall out, gitconfig_Get w g (configKey s) <> Ok out) ->
  string_outcome w g s old = old.
Proof.
  intros Henv Hget. unfold string_outcome.
  rewrite Henv. change (nonempty "") with false.
  destruct (gitconfig_Get _ _ _) as [out|e] eqn:E; [|reflexivity].
  destruct (Hget out). reflexivity.
Qed.

Lemma string_outcome_env w g s old :
  os_Getenv w (envName s) <> "" ->
  string_outcome w g s old = Some (ConfigValue (os_Getenv w (envName s)) srcEnv).
Proof.
  intros Henv. unfold string_outcome.
  apply nonempty_true in Henv. rewrite Henv. reflexivity.
Qed.

Lemma string_outcome_idem w g s old :
  string_outcome w g s (string_outcome w g s old) = string_outcome w g s old.
Proof.
  unfold string_outcome. destruct (nonempty _); [reflexivity|].
  destruct (gitconfig_Get _ _ _); reflexivity.
Qed.

Lemma bool_outcome_idem w g old :
  bool_outcome w g (bool_outcome w g old) = bool_outcome w g old.
Proof.
  unfold bool_outcome. destruct (nonempty _).
  - destruct (ParseBool _); reflexivity.
  - destruct (gitconfig_Bool _ _ _); reflexivity.
Qed.

Lemma store_holds_string w g s :
  is_string_setting s = true ->
  store_holds w g s = false ->
  forall out, gitconfig_Get w g (configKey s) <> Ok out.
Proof.
  intros Hs Hh out E. destruct s; try discriminate; cbn in Hh, E;
    rewrite E in Hh; discriminate.
Qed.

(** C1, as the code has it: a setting that a [Reload] call finds
    neither in the environment (variable unset or empty) nor in the
    store keeps the value it had before the call.  The field is null
    afterwards only when it was null before; a resolved setting stays
    resolved, with its previous text and source. *)
Theorem Reload_keeps_unfound_setting m s :
  os_Getenv (m_world m) (envName s) = "" ->
  store_holds (m_world m) (gitconfig (m_cfg m)) s = false ->
  field s (cfg_after Reload m) = field s (m_cfg m).
Proof.
  intros Henv Hstore. rewrite Reload_cfg_after.
  destruct m as [c w]. cbn [m_cfg m_world] in *.
  destruct s; cbn [field Reload_cfg releaseBranch versionFile command template vPrefix].
  - rewrite string_outcome_unfound; auto using store_holds_string.
  - rewrite string_outcome_unfound; auto using store_holds_string.
  - unfold bool_outcome. cbn in Henv, Hstore. rewrite Henv.
    change (nonempty "") with false.
    destruct (gitconfig_Bool _ _ _); [discriminate|reflexivity].
  - destruct (vprefix_malformed w); [reflexivity|].
    rewrite string_outcome_unfound; auto using store_holds_string.
  - destruct (vprefix_malformed w); [reflexivity|].
    rewrite string_outcome_unfound; auto using store_holds_string.
Qed.

Lemma string_events_no_Get w s s' :
  os_Getenv w (envName s) <> "" ->
  EvGet (configKey s) ∉ string_events w s'.
Proof.
  intros Henv Hin. unfold string_events in Hin.
  destruct (nonempty (os_Getenv w (envName s'))) eqn:E; elem_cases Hin;
    try discriminate.
  apply nonempty_false in E.
  destruct s, s'; try discriminate Hin; contradiction.
Qed.

(** C2, as the code has it: for the release branch and the version
    file always, and for the command and the template whenever
    TAGPR_VPREFIX is empty or parses as a boolean (so that [Reload]
    reaches them), a non-empty environment variable gives the field
    exactly that text with source [srcEnv], whatever the store holds.
    In every case the call does not query the store for that key. *)
Theorem Reload_env_wins m s :
  is_string_setting s = true ->
  os_Getenv (m_world m) (envName s) <> "" ->
  (EvGet (configKey s) ∉ r_events (Reload m)) /\
  (((s = sCommand \/ s = sTemplate) -> vprefix_malformed (m_world m) = false) ->
   field s (cfg_after Reload m) =
   Some (RString (ConfigValue (os_Getenv (m_world m) (envName s)) srcEnv))).
Proof.
  intros Hs Henv. split.
  - rewrite Reload_run. cbn [r_events]. unfold Reload_events, vprefix_events.
    destruct (vprefix_malformed _), (nonempty (os_Getenv (m_world m) envVPrefix));
      intros Hin; elem_cases Hin; try discriminate;
      exact (string_events_no_Get _ s _ Henv Hin).
  - intros Hreach. rewrite Reload_cfg_after.
    destruct s; try discriminate;
      cbn [field Reload_cfg releaseBranch versionFile command template];
      rewrite ?Hreach by auto; rewrite string_outcome_env by assumption;
      reflexivity.
Qed.

(** C3, as the code has it: a non-empty TAGPR_VPREFIX that
    [ParseBool] rejects makes [Reload] return that error at once.
    The read of TAGPR_VPREFIX is the last call made: the store is not
    asked for the boolean, and neither the environment nor the store
    is asked for the command or the template, whose fields (and the
    v-prefix field) stay as they were.  The release branch and the
    version file have been processed before: each is overwritten when
    its variable is non-empty or the store holds its key, and keeps
    its previous value otherwise. *)
Theorem Reload_malformed_vprefix m e :
  os_Getenv (m_world m) envVPrefix <> "" ->
  ParseBool (os_Getenv (m_world m) envVPrefix) = Err e ->
  let w := m_world m in
  let c := m_cfg m in
  let g := gitconfig c in
  r_out (Reload m) = Returned e /\
  r_events (Reload m) =
    (string_events w sReleaseBranch ++ string_events w sVersionFile ++
     [EvGetenv envVPrefix])%list /\
  (forall ev, ev ∈ r_events (Reload m) ->
     ev ∉ [EvBool configVPrefix; EvGetenv envCommand; EvGet configCommand;
           EvGetenv envTemplate; EvGet configTemplate]) /\
  command (cfg_after Reload m) = command c /\
  template (cfg_after Reload m) = template c /\
  vPrefix (cfg_after Reload m) = vPrefix c /\
  releaseBranch (cfg_after Reload m) =
    string_outcome w g sReleaseBranch (releaseBranch c) /\
  versionFile (cfg_after Reload m) =
    string_outcome w g sVersionFile (versionFile c).
Proof.
  destruct m as [c w]. cbn [m_cfg m_world]. intros Hne Hparse.
  apply nonempty_true in Hne.
  assert (Hmal : vprefix_malformed w = true).
  { unfold vprefix_malformed. rewrite Hne, Hparse. reflexivity. }
  rewrite Reload_cfg_after, Reload_run.
  cbn [r_out r_events m_cfg m_world]. unfold Reload_out, Reload_events, Reload_cfg.
  rewrite Hmal, Hne, Hparse.
  cbn [command template vPrefix releaseBranch versionFile].
  repeat split.
  - intros ev Hin Hbad. unfold string_events in Hin.
    destruct (nonempty (os_Getenv w (envName sReleaseBranch))),
             (nonempty (os_Getenv w (envName sVersionFile)));
      elem_cases Hin; subst ev; elem_cases Hbad; discriminate.
  - unfold bool_outcome. rewrite Hne, Hparse. reflexivity.
Qed.

Lemma string_outcome_ext w w2 g s old :
  (forall n, os_Getenv w2 n = os_Getenv w n) ->
  (forall g k, gitconfig_Get w2 g k = gitconfig_Get w g k) ->
  string_outcome w2 g s old = string_outcome w g s old.
Proof. intros He Hg. unfold string_outcome. rewrite He, Hg. reflexivity. Qed.

Lemma Reload_cfg_stable c w w2 :
  (forall n, os_Getenv w2 n = os_Getenv w n) ->
  (forall g k, gitconfig_Get w2 g k = gitconfig_Get w g k) ->
  (forall g k, gitconfig_Bool w2 g k = gitconfig_Bool w g k) ->
  Reload_cfg (Reload_cfg c w) w2 = Reload_cfg c w.
Proof.
  intros He Hg Hb.
  assert (Hmal : vprefix_malformed w2 = vprefix_malformed w).
  { unfold vprefix_malformed. rewrite He. reflexivity. }
  unfold Reload_cfg.
  cbn [releaseBranch versionFile command template vPrefix conf gitconfig].
  rewrite Hmal, !(string_outcome_ext w w2) by assumption.
  rewrite !string_outcome_idem.
  replace (bool_outcome w2 (gitconfig c) (bool_outcome w (gitconfig c) (vPrefix c)))
    with (bool_outcome w (gitconfig c) (vPrefix c)).
  2:{ rewrite <- (bool_outcome_idem w) at 1.
      unfold bool_outcome at 1 3. rewrite He, Hb. reflexivity. }
  destruct (vprefix_malformed w); rewrite ?string_outcome_idem; reflexivity.
Qed.

(** C9: a second [Reload], run on the receiver the first one left and
    on a world whose environment and store lookups answer as they did
    for the first, ends with the same five fields (texts and sources),
    returns the same error or nil, and makes the same calls. *)
Theorem Reload_idempotent m w2 :
  (forall n, os_Getenv w2 n = os_Getenv (m_world m) n) ->
  (forall g k, gitconfig_Get w2 g k = gitconfig_Get (m_world m) g k) ->
  (forall g k, gitconfig_Bool w2 g k = gitconfig_Bool (m_world m) g k) ->
  let m1 := Machine (cfg_after Reload m) w2 in
  cfg_after Reload m1 = cfg_after Reload m /\
  r_out (Reload m1) = r_out (Reload m) /\
  r_events (Reload m1) = r_events (Reload m).
Proof.
  intros He Hg Hb m1. unfold m1.
  rewrite !Reload_cfg_after, !Reload_run. destruct m as [c w].
  cbn [m_cfg m_world r_out r_events] in *.
  assert (Hmal : vprefix_malformed w2 = vprefix_malformed w).
  { unfold vprefix_malformed. rewrite He. reflexivity. }
  repeat split.
  - apply Reload_cfg_stable; assumption.
  - unfold Reload_out. rewrite He. reflexivity.
  - unfold Reload_events, string_events, vprefix_events.
    rewrite Hmal, !He. reflexivity.
Qed.

(** Two consecutive calls with nothing in between: the second run is
    the first one again. *)
Lemma Reload_twice m :
  Reload (r_end (Reload m)) = Reload m.
Proof.
  rewrite (Reload_run m). cbn [r_end]. rewrite Reload_run.
  cbn [m_cfg m_world]. rewrite Reload_cfg_stable by reflexivity. reflexivity.
Qed.

End Reload_claims.

(** ** The write path, step by step *)

Ltac write_case :=
  match goal with
  | |- context [exists_ ?w ?p] => destruct (exists_ w p) eqn:?
  | |- context [os_RemoveAll ?w ?p] => destruct (os_RemoveAll w p) as [[?|] ?] eqn:?
  | |- context [os_WriteFile ?w ?p ?t ?n] =>
      destruct (os_WriteFile w p t n) as [[?|] ?] eqn:?
  | |- context [gitconfig_Do ?w ?g ?a] =>
      destruct (gitconfig_Do w g a) as [[?|?] ?] eqn:?
  end.

Ltac write_cases := cbn in *; repeat (write_case; cbn in *; simplify_eq).

Section Write_facts.
Context {World : Type} `{Externals World}.
Implicit Types (m : machine World) (w : World).

Lemma initializeFile_run m :
  initializeFile m =
  let c := m_cfg m in
  let rm := os_RemoveAll (m_world m) (conf c) in
  match rm.1 with
  | Some e => Run (Returned e) (Machine c rm.2) [EvRemoveAll (conf c)]
  | None =>
      let wr := os_WriteFile rm.2 (conf c) defaultConfigContent 438 in
      Run (match wr.1 with Some e => Returned e | None => Done tt end)
          (Machine c wr.2) (recreation c)
  end.
Proof.
  destruct m as [c w]. unfold initializeFile, recreation. unfold_go.
  write_cases; reflexivity.
Qed.

Lemma initializeFile_cfg m : cfg_after initializeFile m = m_cfg m.
Proof.
  unfold cfg_after. rewrite initializeFile_run. cbn zeta.
  destruct (os_RemoveAll _ _).1; reflexivity.
Qed.

Lemma initializeFile_events m :
  r_events (initializeFile m) = [EvRemoveAll (conf (m_cfg m))] \/
  r_events (initializeFile m) = recreation (m_cfg m).
Proof.
  rewrite initializeFile_run. cbn zeta.
  destruct (os_RemoveAll _ _).1; [left|right]; reflexivity.
Qed.

Lemma initializeFile_done m :
  r_out (initializeFile m) = Done tt ->
  r_events (initializeFile m) = recreation (m_cfg m).
Proof.
  rewrite initializeFile_run. cbn zeta.
  destruct (os_RemoveAll _ _).1; [discriminate|reflexivity].
Qed.

Lemma ensure_file_cfg m : cfg_after ensure_file m = m_cfg m.
Proof.
  destruct m as [c w]. unfold ensure_file. unfold_go. write_cases; reflexivity.
Qed.

Lemma ensure_file_events m ev :
  ev ∈ r_events (ensure_file m) ->
  ev ∈ EvExists (conf (m_cfg m)) :: recreation (m_cfg m).
Proof.
  destruct m as [c w]. unfold ensure_file, recreation. unfold_go.
  write_cases; intros Hin; elem_cases Hin; subst; set_solver.
Qed.

(** [set], run symbolically after its first block. *)
Lemma set_run key value m :
  set key value m =
  let r0 := ensure_file m in
  let c := m_cfg m in
  let g := gitconfig c in
  let a := [key; encode value] in
  match r_out r0 with
  | Returned e => Run (Returned e) (r_end r0) (r_events r0)
  | Done _ =>
      let first := gitconfig_Do (m_world (r_end r0)) g a in
      match first.1 with
      | Ok _ => Run (Done tt) (Machine c first.2) (r_events r0 ++ [EvDo a])
      | Err _ =>
          let init := initializeFile (Machine c first.2) in
          match r_out init with
          | Returned e =>
              Run (Returned e) (r_end init) (r_events r0 ++ EvDo a :: r_events init)
          | Done _ =>
              let second := gitconfig_Do (m_world (r_end init)) g a in
              Run (match second.1 with Ok _ => Done tt | Err e => Returned e end)
                  (Machine c second.2)
                  (r_events r0 ++ EvDo a :: r_events init ++ [EvDo a])
          end
      end
  end.
Proof.
  destruct m as [c w]. unfold encode. unfold_go.
  write_cases; rewrite ?app_nil_r; reflexivity.
Qed.

Lemma set_cfg key value m : cfg_after (set key value) m = m_cfg m.
Proof.
  unfold cfg_after. rewrite set_run. cbn zeta.
  pose proof (ensure_file_cfg m) as H0. unfold cfg_after in H0.
  destruct (r_out (ensure_file m)); [|exact H0].
  destruct (gitconfig_Do _ _ _).1; [reflexivity|].
  pose proof (initializeFile_cfg
                (Machine (m_cfg m)
                   (gitconfig_Do (m_world (r_end (ensure_file m)))
                      (gitconfig (m_cfg m)) [key; encode value]).2)) as Hi.
  unfold cfg_after in Hi.
  destruct (r_out (initializeFile _)); [reflexivity|exact Hi].
Qed.

Lemma encode_nonempty value : encode value <> "".
Proof.
  unfold encode. destruct (String.eqb_spec value ""); [discriminate|assumption].
Qed.

Lemma set_writes key value m args :
  EvDo args ∈ r_events (set key value m) -> args = [key; encode value].
Proof.
  rewrite set_run. cbn zeta. intros Hin.
  assert (Hpre : EvDo args ∉ r_events (ensure_file m)).
  { intros Hp. apply ensure_file_events in Hp. unfold recreation in Hp.
    elem_cases Hp; discriminate. }
  assert (Hinit : forall m', EvDo args ∉ r_events (initializeFile m')).
  { intros m' Hp. destruct (initializeFile_events m') as [E|E];
      rewrite E in Hp; unfold recreation in Hp; elem_cases Hp; discriminate. }
  destruct (r_out (ensure_file m)); [|contradiction].
  destruct (gitconfig_Do _ _ _).1; cbn [r_events] in Hin.
  - elem_cases Hin; [contradiction|congruence].
  - destruct (r_out (initializeFile _)); cbn [r_events] in Hin;
      elem_cases Hin; try congruence; try contradiction;
      exfalso; eapply Hinit; eassumption.
Qed.

(** A setter is [set] followed, on success, by one assignment. *)
Lemma setter_run (key value : string) (upd : config -> config) m :
  (err <- call (set key value) ;;
   match err with
   | Some e => throw e
   | None => assign upd
   end)%go m =
  let r := set key value m in
  match r_out r with
  | Returned e => Run (Returned e) (r_end r) (r_events r)
  | Done _ => Run (Done tt) (Machine (upd (m_cfg m)) (m_world (r_end r))) (r_events r)
  end.
Proof.
  pose proof (set_cfg key value m) as Hc. unfold cfg_after in Hc.
  unfold bind, call, assign, throw.
  destruct (set key value m) as [[[]|e] [c' w'] l]; cbn in Hc |- *;
    rewrite ?app_nil_r; subst; reflexivity.
Qed.

End Write_facts.

(** ** Properties of the write path *)

Section Write_claims.
Context {World : Type} `{Externals World}.
Implicit Types (m : machine World) (w : World) (x : setter).

Lemma run_setter_run x m :
  run_setter x m =
  let r := set (setter_key x) (setter_text x) m in
  match r_out r with
  | Returned e => Run (Returned e) (r_end r) (r_events r)
  | Done _ =>
      Run (Done tt) (Machine (setter_assign x (m_cfg m)) (m_world (r_end r)))
          (r_events r)
  end.
Proof. destruct x; apply setter_run. Qed.

Lemma run_setter_events x m :
  r_events (run_setter x m) = r_events (set (setter_key x) (setter_text x) m).
Proof.
  rewrite run_setter_run. cbn zeta. destruct (r_out (set _ _ _)); reflexivity.
Qed.

Lemma run_setter_out x m :
  r_out (run_setter x m) = r_out (set (setter_key x) (setter_text x) m).
Proof.
  rewrite run_setter_run. cbn zeta.
  destruct (r_out (set _ _ _)) as [[]|err]; reflexivity.
Qed.

Lemma run_setter_cfg x m :
  cfg_after (run_setter x) m =
  match r_out (set (setter_key x) (setter_text x) m) with
  | Done _ => setter_assign x (m_cfg m)
  | Returned _ => m_cfg m
  end.
Proof.
  pose proof (set_cfg (setter_key x) (setter_text x) m) as Hc.
  unfold cfg_after in *. rewrite run_setter_run. cbn zeta.
  destruct (r_out (set _ _ _)); [reflexivity|exact Hc].
Qed.

Lemma set_done_last_write key value m :
  r_out (set key value m) = Done tt ->
  exists pre, r_events (set key value m) = (pre ++ [EvDo [key; encode value]])%list.
Proof.
  rewrite set_run. cbn zeta.
  destruct (r_out (ensure_file m)); [|discriminate].
  destruct (gitconfig_Do _ _ _).1; cbn [r_out r_events].
  - eauto.
  - destruct (r_out (initializeFile _)); [|discriminate].
    cbn [r_out r_events]. intros _.
    eexists (_ ++ EvDo _ :: _)%list. rewrite <- app_assoc. reflexivity.
Qed.

(** C4: once the file check of [set] has passed, the first write
    decides.  If it succeeds, [set] returns nil and the write is its
    last call: nothing is recreated and nothing is written twice.  If
    it fails, [set] runs [initializeFile], which removes the file and
    writes [defaultConfigContent] in its place; when that fails its
    error is returned and no further write is made; when it succeeds
    the same write is made exactly once more, and its error, or nil,
    is what [set] returns. *)
Theorem set_repairs_and_retries_once key value m :
  r_out (ensure_file m) = Done tt ->
  let c := m_cfg m in
  let g := gitconfig c in
  let a := [key; encode value] in
  let pre := r_events (ensure_file m) in
  let first := gitconfig_Do (world_after ensure_file m) g a in
  let r := set key value m in
  match first.1 with
  | Ok _ =>
      r_out r = Done tt /\
      r_events r = (pre ++ [EvDo a])%list /\
      m_world (r_end r) = first.2
  | Err _ =>
      let init := initializeFile (Machine c first.2) in
      match r_out init with
      | Returned e =>
          r_out r = Returned e /\
          r_events r = (pre ++ [EvDo a] ++ r_events init)%list /\
          (forall args, EvDo args ∉ r_events init) /\
          m_world (r_end r) = m_world (r_end init)
      | Done _ =>
          let second := gitconfig_Do (m_world (r_end init)) g a in
          r_events init = recreation c /\
          r_events r = (pre ++ [EvDo a] ++ recreation c ++ [EvDo a])%list /\
          r_out r = match second.1 with Ok _ => Done tt | Err e => Returned e end /\
          m_world (r_end r) = second.2
      end
  end.
Proof.
  intros Hpre. cbn zeta. unfold world_after. rewrite set_run. cbn zeta.
  rewrite Hpre.
  destruct (gitconfig_Do _ _ _).1; cbn [r_out r_events r_end m_world].
  - auto.
  - set (init := initializeFile _).
    pose proof (initializeFile_events
                  (Machine (m_cfg m)
                     (gitconfig_Do (m_world (r_end (ensure_file m)))
                        (gitconfig (m_cfg m)) [key; encode value]).2)) as Hev.
    pose proof (initializeFile_done
                  (Machine (m_cfg m)
                     (gitconfig_Do (m_world (r_end (ensure_file m)))
                        (gitconfig (m_cfg m)) [key; encode value]).2)) as Hdone.
    fold init in Hev, Hdone. cbn [m_cfg] in Hev, Hdone.
    destruct (r_out init) as [[]|err]; cbn [r_out r_events r_end m_world].
    + rewrite Hdone by reflexivity. auto.
    + repeat split.
      intros args Hin. unfold recreation in Hev.
      destruct Hev as [E|E]; rewrite E in Hin; elem_cases Hin; discriminate.
Qed.

(** C8: every text handed to the store's write primitive is
    non-empty.  Whatever [set] writes is [key] with the text [encode
    value], which is the hyphen for an empty [value] and [value] itself
    otherwise; [SetVPrefix] passes the text of [FormatBool], either
    true or false, which is written as it is. *)
Theorem store_writes_are_nonempty m args :
  (forall key value,
     EvDo args ∈ r_events (set key value m) ->
     exists v, args = [key; v] /\ v <> "" /\
               (value = "" -> v = "-") /\ (value <> "" -> v = value)) /\
  (forall x,
     EvDo args ∈ r_events (run_setter x m) ->
     exists v, args = [setter_key x; v] /\ v <> "" /\
               (setter_text x = "" -> v = "-") /\
               (setter_text x <> "" -> v = setter_text x)) /\
  (forall b,
     EvDo args ∈ r_events (SetVPrefix b m) ->
     args = [configVPrefix; FormatBool b] /\
     (FormatBool b = "true" \/ FormatBool b = "false") /\
     FormatBool b <> "-").
Proof.
  assert (Hset : forall key value,
             EvDo args ∈ r_events (set key value m) ->
             exists v, args = [key; v] /\ v <> "" /\
                       (value = "" -> v = "-") /\ (value <> "" -> v = value)).
  { intros key value Hin. apply set_writes in Hin. exists (encode value).
    split; [assumption|]. split; [apply encode_nonempty|].
    unfold encode. destruct (String.eqb_spec value ""); split; congruence. }
  split; [exact Hset|]. split.
  - intros x Hin. rewrite run_setter_events in Hin. auto.
  - intros b Hin. change (SetVPrefix b) with (run_setter (CallSetVPrefix b)) in Hin.
    rewrite run_setter_events in Hin. apply set_writes in Hin.
    cbn [setter_key setter_text] in Hin. subst args.
    destruct b; cbn; repeat split; auto; discriminate.
Qed.

(** C10: a setter whose write path ([set], after its one retry)
    returns an error returns that error and leaves the receiver, and
    so the setting's field, exactly as it was; the field is assigned,
    with source [srcDetect], when [set] has returned nil. *)
Theorem setter_assigns_only_after_persist x m :
  (forall e,
     r_out (set (setter_key x) (setter_text x) m) = Returned e ->
     r_out (run_setter x m) = Returned e /\
     cfg_after (run_setter x) m = m_cfg m) /\
  (r_out (set (setter_key x) (setter_text x) m) = Done tt ->
   r_out (run_setter x m) = Done tt /\
   cfg_after (run_setter x) m = setter_assign x (m_cfg m)).
Proof.
  rewrite run_setter_out, run_setter_cfg.
  split; [intros e Hout|intros Hout]; rewrite Hout; auto.
Qed.

(** C5: a successful [SetVersionFile] of the empty text writes the
    hyphen under [tagpr.versionFile], in every write it makes and in
    its last call.  A later [Reload] that finds TAGPR_VERSION_FILE
    unset or empty and gets that hyphen back from the store resolves
    the version file to a value whose [String] is empty and whose
    [Empty] is true. *)
Theorem SetVersionFile_empty_roundtrip m w' :
  r_out (SetVersionFile "" m) = Done tt ->
  os_Getenv w' envVersionFile = "" ->
  gitconfig_Get w' (gitconfig (m_cfg m)) configVersionFile = Ok "-" ->
  (exists pre,
     r_events (SetVersionFile "" m) = (pre ++ [EvDo [configVersionFile; "-"]])%list) /\
  (forall args,
     EvDo args ∈ r_events (SetVersionFile "" m) -> args = [configVersionFile; "-"]) /\
  exists cv,
    versionFile (cfg_after Reload (Machine (cfg_after (SetVersionFile "") m) w'))
      = Some cv /\
    value cv = "-" /\ source cv = srcConfigFile /\
    String_ cv = "" /\ Empty cv = true.
Proof.
  intros Hout Henv Hget.
  change (SetVersionFile "") with (run_setter (CallSetVersionFile "")) in *.
  rewrite run_setter_out in Hout. cbn [setter_key setter_text] in Hout.
  rewrite run_setter_events, run_setter_cfg. cbn [setter_key setter_text].
  split; [|split].
  - apply set_done_last_write in Hout. exact Hout.
  - intros args Hin. apply set_writes in Hin. exact Hin.
  - rewrite Hout, Reload_cfg_after. cbn.
    unfold string_outcome. cbn [envName configKey]. rewrite Henv, Hget.
    eexists. split; [reflexivity|]. repeat split.
Qed.

(** C7: the v-prefix has three states.  A receiver whose v-prefix is
    unset (as [newConfig] makes it) still has it unset after a
    [Reload] that finds TAGPR_VPREFIX unset or empty and no boolean in
    the store; a stored false gives the field a pointer to false,
    which is another value; and after a successful [SetVPrefix] of
    false the field points to false. *)
Theorem vPrefix_tristate m :
  (os_Getenv (m_world m) envVPrefix = "" ->
   (forall b, gitconfig_Bool (m_world m) (gitconfig (m_cfg m)) configVPrefix <> Ok b) ->
   vPrefix (m_cfg m) = None ->
   vPrefix (cfg_after Reload m) = None) /\
  (forall gitPath,
     os_Getenv (m_world m) envVPrefix = "" ->
     (forall b, gitconfig_Bool (m_world m) (GitConfig gitPath defaultConfigFile)
                  configVPrefix <> Ok b) ->
     vPrefix (m_cfg (r_end (newConfig gitPath (m_world m)))) = None) /\
  (os_Getenv (m_world m) envVPrefix = "" ->
   gitconfig_Bool (m_world m) (gitconfig (m_cfg m)) configVPrefix = Ok false ->
   vPrefix (cfg_after Reload m) = Some false /\
   vPrefix (cfg_after Reload m) <> None) /\
  (r_out (SetVPrefix false m) = Done tt ->
   vPrefix (cfg_after (SetVPrefix false) m) = Some false).
Proof.
  assert (Hunset : forall m', os_Getenv (m_world m') envVPrefix = "" ->
            (forall b, gitconfig_Bool (m_world m') (gitconfig (m_cfg m'))
                         configVPrefix <> Ok b) ->
            vPrefix (m_cfg m') = None -> vPrefix (cfg_after Reload m') = None).
  { intros m' Henv Hb Hnil. rewrite Reload_cfg_after. cbn. unfold bool_outcome.
    rewrite Henv. change (nonempty "") with false.
    destruct (gitconfig_Bool _ _ _) as [b|?] eqn:E; [|assumption].
    destruct (Hb b). reflexivity. }
  split; [apply Hunset|]. split; [|split].
  - intros gitPath Henv Hb. unfold newConfig. apply Hunset; auto.
  - intros Henv Hb. rewrite Reload_cfg_after. cbn. unfold bool_outcome.
    rewrite Henv, Hb. change (nonempty "") with false. split; [reflexivity|discriminate].
  - intros Hout.
    change (SetVPrefix false) with (run_setter (CallSetVPrefix false)) in *.
    rewrite run_setter_out in Hout. rewrite run_setter_cfg, Hout. reflexivity.
Qed.

End Write_claims.

(** ** Properties of [configValue] *)

(** C6: [String] is the empty text when the raw text is the hyphen and
    the raw text itself, unchanged, otherwise; [Empty] holds exactly
    when [String] is the empty text. *)
Theorem String_Empty_spec (cv : configValue) :
  String_ cv = (if decide (value cv = "-") then "" else value cv) /\
  (Empty cv = true <-> String_ cv = "").
Proof.
  unfold Empty, String_. split.
  - destruct (String.eqb_spec (value cv) "-"), (decide (value cv = "-"));
      congruence.
  - apply String.eqb_eq.
Qed.

(** C1 as stated fails: the store gives the release branch to a first
    [Reload]; the file is then gone, the second [Reload] finds the
    setting neither in the environment nor in the store, and the field
    still holds what the first one put there. *)
Lemma Reload_resets_unfound_counterexample :
  let c1 := cfg_after Reload
              (Machine Sim.cfg0
                 (Sim.healthy ∅ (Some {[configReleaseBranch := "main"]}))) in
  let m2 := Machine c1 (Sim.healthy ∅ None) in
  releaseBranch c1 = Some (ConfigValue "main" srcConfigFile) /\
  os_Getenv (m_world m2) (envName sReleaseBranch) = "" /\
  store_holds (m_world m2) (gitconfig (m_cfg m2)) sReleaseBranch = false /\
  field sReleaseBranch (cfg_after Reload m2) <> None /\
  releaseBranch (cfg_after Reload m2) = Some (ConfigValue "main" srcConfigFile).
Proof. vm_compute. repeat split; discriminate. Qed.

Lemma Reload_keeps_unfound_setting_witness :
  os_Getenv (m_world Scenario.detected) (envName sReleaseBranch) = "" /\
  store_holds (m_world Scenario.detected) (gitconfig (m_cfg Scenario.detected))
    sReleaseBranch = false /\
  field sReleaseBranch (cfg_after Reload Scenario.detected) =
    Some (RString (ConfigValue "main" srcDetect)).
Proof.
  split; [reflexivity|]. split; [reflexivity|].
  apply (Reload_keeps_unfound_setting Scenario.detected sReleaseBranch);
    reflexivity.
Defined.

(** C2 as stated fails for the command: TAGPR_COMMAND is non-empty, but
    TAGPR_VPREFIX does not parse, [Reload] returns before the command
    block and the field is still nil. *)
Lemma Reload_env_wins_counterexample :
  os_Getenv (m_world Scenario.bad_vprefix) (envName sCommand) = "make" /\
  is_string_setting sCommand = true /\
  command (cfg_after Reload Scenario.bad_vprefix) = None /\
  field sCommand (cfg_after Reload Scenario.bad_vprefix) <>
    Some (RString (ConfigValue "make" srcEnv)).
Proof. vm_compute. repeat split; discriminate. Qed.

Lemma Reload_env_wins_witness :
  is_string_setting sCommand = true /\
  os_Getenv (m_world Scenario.command_in_env) (envName sCommand) <> "" /\
  (EvGet (configKey sCommand) ∉ r_events (Reload Scenario.command_in_env)) /\
  field sCommand (cfg_after Reload Scenario.command_in_env) =
    Some (RString (ConfigValue "make" srcEnv)).
Proof.
  assert (Henv : os_Getenv (m_world Scenario.command_in_env) (envName sCommand) <> "")
    by (vm_compute; discriminate).
  destruct (Reload_env_wins Scenario.command_in_env sCommand eq_refl Henv)
    as [Hquiet Hfield].
  split; [reflexivity|]. split; [exact Henv|]. split; [exact Hquiet|].
  apply Hfield. intros _. reflexivity.
Defined.

(** C3 as stated fails in its last part: with a malformed TAGPR_VPREFIX
    and a release branch that is neither in the environment nor in the
    store, [Reload] returns the error and the release branch has not
    been overwritten: it is what it was before the call. *)
Lemma Reload_malformed_overwrites_counterexample :
  let m := Scenario.bad_vprefix_detected in
  r_out (Reload m) = Returned (NumError "ParseBool" "notabool") /\
  os_Getenv (m_world m) (envName sReleaseBranch) = "" /\
  store_holds (m_world m) (gitconfig (m_cfg m)) sReleaseBranch = false /\
  releaseBranch (m_cfg m) = Some (ConfigValue "develop" srcDetect) /\
  releaseBranch (cfg_after Reload m) = releaseBranch (m_cfg m).
Proof. vm_compute. repeat split. Qed.

Lemma Reload_malformed_vprefix_witness :
  let m := Scenario.bad_vprefix in
  os_Getenv (m_world m) envVPrefix <> "" /\
  ParseBool (os_Getenv (m_world m) envVPrefix) = Err (NumError "ParseBool" "notabool") /\
  r_out (Reload m) = Returned (NumError "ParseBool" "notabool") /\
  command (cfg_after Reload m) = None /\
  releaseBranch (cfg_after Reload m) = Some (ConfigValue "main" srcConfigFile).
Proof.
  cbv zeta.
  assert (Hne : os_Getenv (m_world Scenario.bad_vprefix) envVPrefix <> "")
    by (vm_compute; discriminate).
  assert (Hbad : ParseBool (os_Getenv (m_world Scenario.bad_vprefix) envVPrefix)
                 = Err (NumError "ParseBool" "notabool")) by reflexivity.
  destruct (Reload_malformed_vprefix Scenario.bad_vprefix _ Hne Hbad)
    as (Hout & _ & _ & Hcmd & _ & _ & Hrb & _).
  split; [exact Hne|]. split; [exact Hbad|]. split; [exact Hout|].
  split; [exact Hcmd|]. rewrite Hrb. reflexivity.
Defined.

Lemma Reload_idempotent_witness :
  let m := Scenario.bad_vprefix in
  let m1 := Machine (cfg_after Reload m) (m_world m) in
  cfg_after Reload m1 = cfg_after Reload m /\
  r_out (Reload m1) = r_out (Reload m) /\
  r_events (Reload m1) = r_events (Reload m).
Proof.
  apply (Reload_idempotent Scenario.bad_vprefix (m_world Scenario.bad_vprefix));
    reflexivity.
Defined.

(** A broken file with a key of the user's: the first write fails, the
    file is recreated, the second write succeeds, and the user's key is
    gone. *)
Lemma set_repairs_and_retries_once_witness :
  let m := Scenario.broken_file in
  let r := set configReleaseBranch "main" m in
  r_out (ensure_file m) = Done tt /\
  r_out r = Done tt /\
  r_events r =
    [EvExists ".tagpr"; EvDo [configReleaseBranch; "main"];
     EvRemoveAll ".tagpr"; EvWriteFile ".tagpr" defaultConfigContent 438;
     EvDo [configReleaseBranch; "main"]] /\
  Sim.file (m_world (r_end r)) = Some {[configReleaseBranch := "main"]}.
Proof.
  cbv zeta.
  assert (Hpre : r_out (ensure_file Scenario.broken_file) = Done tt) by reflexivity.
  pose proof (set_repairs_and_retries_once configReleaseBranch "main"
                Scenario.broken_file Hpre) as T.
  vm_compute in T. destruct T as (_ & Hev & Hout & Hw).
  split; [exact Hpre|]. split; [exact Hout|]. split; [exact Hev|].
  exact (f_equal Sim.file Hw).
Defined.

Lemma store_writes_are_nonempty_witness :
  let m := Scenario.fresh in
  EvDo [configVersionFile; "-"] ∈ r_events (run_setter (CallSetVersionFile "") m) /\
  EvDo [configVPrefix; "false"] ∈ r_events (SetVPrefix false m) /\
  (exists v, [configVersionFile; "-"] = [configVersionFile; v] /\ v <> "" /\
             (setter_text (CallSetVersionFile "") = "" -> v = "-") /\
             (setter_text (CallSetVersionFile "") <> "" -> v = "")) /\
  FormatBool false <> "-".
Proof.
  cbv zeta.
  assert (H1 : EvDo [configVersionFile; "-"]
               ∈ r_events (run_setter (CallSetVersionFile "") Scenario.fresh)).
  { apply list_elem_of_In. vm_compute. tauto. }
  assert (H2 : EvDo [configVPrefix; "false"]
               ∈ r_events (SetVPrefix false Scenario.fresh)).
  { apply list_elem_of_In. vm_compute. tauto. }
  split; [exact H1|]. split; [exact H2|]. split.
  - exact (proj1 (proj2 (store_writes_are_nonempty Scenario.fresh _))
             (CallSetVersionFile "") H1).
  - exact (proj2 (proj2 (proj2 (proj2 (store_writes_are_nonempty Scenario.fresh _))
                           false H2))).
Defined.

Lemma setter_assigns_only_after_persist_witness :
  let m := Scenario.no_git in
  let x := CallSetRelaseBranch "main" in
  r_out (set (setter_key x) (setter_text x) m) =
    Returned (ExternalError "git config failed") /\
  r_out (run_setter x m) = Returned (ExternalError "git config failed") /\
  cfg_after (run_setter x) m = m_cfg m /\
  r_out (set (setter_key x) (setter_text x) Scenario.fresh) = Done tt /\
  releaseBranch (cfg_after (run_setter x) Scenario.fresh) =
    Some (ConfigValue "main" srcDetect).
Proof.
  cbv zeta.
  assert (Hfail : r_out (set configReleaseBranch "main" Scenario.no_git)
                  = Returned (ExternalError "git config failed")) by reflexivity.
  assert (Hok : r_out (set configReleaseBranch "main" Scenario.fresh) = Done tt)
    by reflexivity.
  destruct (proj1 (setter_assigns_only_after_persist
                     (CallSetRelaseBranch "main") Scenario.no_git) _ Hfail)
    as [Hout Hcfg].
  destruct (proj2 (setter_assigns_only_after_persist
                     (CallSetRelaseBranch "main") Scenario.fresh) Hok)
    as [_ Hset].
  split; [exact Hfail|]. split; [exact Hout|]. split; [exact Hcfg|].
  split; [exact Hok|]. rewrite Hset. reflexivity.
Defined.

(** The round trip in the simulated store: after the setter the file
    holds the hyphen, and [Reload] on that very world reads it back. *)
Lemma SetVersionFile_empty_roundtrip_witness :
  let m := Scenario.fresh in
  let w' := world_after (SetVersionFile "") m in
  r_out (SetVersionFile "" m) = Done tt /\
  os_Getenv w' envVersionFile = "" /\
  gitconfig_Get w' (gitconfig (m_cfg m)) configVersionFile = Ok "-" /\
  Sim.file w' = Some {[configVersionFile := "-"]} /\
  exists cv,
    versionFile (cfg_after Reload (Machine (cfg_after (SetVersionFile "") m) w'))
      = Some cv /\
    value cv = "-" /\ source cv = srcConfigFile /\
    String_ cv = "" /\ Empty cv = true.
Proof.
  cbv zeta.
  split; [reflexivity|]. split; [reflexivity|]. split; [reflexivity|].
  split; [reflexivity|].
  apply (SetVersionFile_empty_roundtrip Scenario.fresh
           (world_after (SetVersionFile "") Scenario.fresh));
    reflexivity.
Defined.

Lemma vPrefix_tristate_witness :
  vPrefix (cfg_after Reload Scenario.fresh) = None /\
  vPrefix (m_cfg (r_end (newConfig "git" (m_world Scenario.fresh)))) = None /\
  vPrefix (cfg_after Reload Scenario.stored_false) = Some false /\
  vPrefix (cfg_after (SetVPrefix false) Scenario.fresh) = Some false.
Proof.
  destruct (vPrefix_tristate Scenario.fresh) as (Hunset & Hnew & _ & Hset).
  destruct (vPrefix_tristate Scenario.stored_false) as (_ & _ & Hstored & _).
  split; [|split; [|split]].
  - apply Hunset; [reflexivity| |reflexivity]. intros b. vm_compute. discriminate.
  - apply Hnew; [reflexivity|]. intros b. vm_compute. discriminate.
  - apply Hstored; reflexivity.
  - apply Hset. reflexivity.
Defined.

(** ** More about [Reload] and [newConfig] *)

Lemma ParseBool_Err (str : string) (e : error) :
  ParseBool str = Err e -> e = NumError "ParseBool" str.
Proof.
  unfold ParseBool.
  destruct (existsb _ _); [discriminate|].
  destruct (existsb _ _); [discriminate|]. congruence.
Qed.

Section Reload_more.
Context {World : Type} `{Externals World}.
Implicit Types (m : machine World) (s : setting) (w : World).

(** Field by field: a block that is reached and finds a value assigns
    it, any other block leaves the field alone. *)
Lemma Reload_field m s :
  field s (cfg_after Reload m) =
  match (if reached (m_world m) s
         then found (m_world m) (gitconfig (m_cfg m)) s else None) with
  | Some r => Some r
  | None => field s (m_cfg m)
  end.
Proof.
  rewrite Reload_cfg_after. destruct m as [c w]. cbn [m_cfg m_world].
  unfold found, store_answer, reached.
  destruct s; cbn [field Reload_cfg releaseBranch versionFile command template
                     vPrefix envName configKey negb];
    unfold string_outcome, bool_outcome; cbn [envName configKey];
    try (destruct (vprefix_malformed w); cbn [negb]; [reflexivity|]);
    destruct (nonempty _); try reflexivity;
    try (destruct (gitconfig_Get _ _ _); reflexivity).
  - destruct (ParseBool _); reflexivity.
  - destruct (gitconfig_Bool _ _ _); reflexivity.
Qed.

Lemma store_event_asked w s :
  os_Getenv w (envName s) = "" ->
  reached w s = true ->
  store_event s ∈ Reload_events w.
Proof.
  intros Henv Hreach. apply nonempty_false in Henv.
  unfold Reload_events, string_events, vprefix_events.
  destruct s; cbn [reached envName] in *;
    try (apply negb_true_iff in Hreach; rewrite Hreach);
    rewrite ?Henv; cbn [store_event configKey].
  - set_solver.
  - set_solver.
  - assert (Hm : vprefix_malformed w = false)
      by (unfold vprefix_malformed; rewrite Henv; reflexivity).
    rewrite Hm. set_solver.
  - set_solver.
  - set_solver.
Qed.

(** X1 (store fallback): when a setting's environment variable is unset
    or empty and [Reload] reaches its block, the store is asked for the
    setting's key, and if it answers, the field holds that answer, for
    the four texts with source [srcConfigFile]. *)
Theorem Reload_store_fallback m s r :
  os_Getenv (m_world m) (envName s) = "" ->
  reached (m_world m) s = true ->
  store_answer (m_world m) (gitconfig (m_cfg m)) s = Some r ->
  store_event s ∈ r_events (Reload m) /\
  field s (cfg_after Reload m) = Some r /\
  (forall cv, r = RString cv -> source cv = srcConfigFile).
Proof.
  intros Henv Hreach Hans. split; [|split].
  - rewrite Reload_run. cbn [r_events]. apply store_event_asked; assumption.
  - rewrite Reload_field, Hreach. unfold found.
    apply nonempty_false in Henv. rewrite Henv, Hans. reflexivity.
  - intros cv ->. unfold store_answer in Hans.
    destruct s; cbn [configKey] in Hans;
      try (destruct (gitconfig_Get _ _ _); inversion Hans; reflexivity).
    destruct (gitconfig_Bool _ _ _); discriminate.
Qed.

(** X2: [Reload] only reads.  Every call it makes is a [Getenv], a
    [Get] or a [Bool], never a file operation or a store write, and it
    makes no call twice. *)
Theorem Reload_only_reads_once m :
  Forall (fun ev => is_read ev = true) (r_events (Reload m)) /\
  NoDup (r_events (Reload m)).
Proof.
  rewrite Reload_run. cbn [r_events].
  unfold Reload_events, string_events, vprefix_events. cbn [envName configKey].
  destruct (nonempty (os_Getenv (m_world m) envReleaseBranch)),
           (nonempty (os_Getenv (m_world m) envVersionFile)),
           (vprefix_malformed (m_world m)),
           (nonempty (os_Getenv (m_world m) envVPrefix)),
           (nonempty (os_Getenv (m_world m) envCommand)),
           (nonempty (os_Getenv (m_world m) envTemplate));
    (split; [repeat constructor|apply (bool_decide_unpack _); vm_compute; exact I]).
Qed.

(** X3: the only way [Reload] returns an error is a non-empty
    TAGPR_VPREFIX that [ParseBool] rejects; the error is [ParseBool]'s
    syntax error for that text.  No answer of the store makes [Reload]
    fail. *)
Theorem Reload_fails_iff_vprefix_malformed m e :
  r_out (Reload m) = Returned e <->
  os_Getenv (m_world m) envVPrefix <> "" /\
  ParseBool (os_Getenv (m_world m) envVPrefix) = Err e /\
  e = NumError "ParseBool" (os_Getenv (m_world m) envVPrefix).
Proof.
  rewrite Reload_run. cbn [r_out]. unfold Reload_out.
  destruct (nonempty _) eqn:Hne.
  - apply nonempty_true in Hne.
    destruct (ParseBool _) as [b|e'] eqn:Hp; split.
    + discriminate.
    + intros (_ & Hbad & _). discriminate.
    + intros [= ->]. auto using ParseBool_Err.
    + intros (_ & [= ->] & _). reflexivity.
  - apply nonempty_false in Hne. split; [discriminate|].
    intros (Hbad & _). contradiction.
Qed.

(** X4: [newConfig] resolves from scratch.  The receiver it returns is
    bound to [.tagpr] and to the given git path; each setting whose
    block is reached holds exactly what the environment, or else the
    store, gave for it, and is nil when neither gave anything or the
    block was not reached; no field has source [srcDetect]. *)
Theorem newConfig_resolves_from_scratch (gitPath : string) w :
  let c := m_cfg (r_end (newConfig gitPath w)) in
  let g := GitConfig gitPath defaultConfigFile in
  conf c = defaultConfigFile /\
  gitconfig c = g /\
  (forall s, field s c = if reached w s then found w g s else None) /\
  (forall s cv, field s c = Some (RString cv) -> source cv <> srcDetect).
Proof.
  cbn zeta. unfold newConfig.
  set (m0 := Machine _ w).
  assert (Hf : forall s, field s (cfg_after Reload m0) =
                         if reached w s
                         then found w (GitConfig gitPath defaultConfigFile) s
                         else None).
  { intros s. rewrite Reload_field. cbn [m0 m_world m_cfg gitconfig].
    destruct (if reached w s then _ else _); [reflexivity|].
    destruct s; reflexivity. }
  unfold cfg_after in Hf.
  split; [|split; [|split]].
  - rewrite Reload_run. reflexivity.
  - rewrite Reload_run. reflexivity.
  - exact Hf.
  - intros s cv Hs. rewrite Hf in Hs.
    destruct (reached w s); [|discriminate].
    unfold found, store_answer in Hs.
    destruct (nonempty _).
    + destruct s; try (inversion Hs; subst; discriminate).
      destruct (ParseBool _); discriminate.
    + destruct s; try (destruct (gitconfig_Get _ _ _); inversion Hs; subst; discriminate).
      destruct (gitconfig_Bool _ _ _); discriminate.
Qed.

(** X5: a non-empty TAGPR_VPREFIX that parses as a boolean wins over
    the store: the field points to the parsed boolean, [Reload] returns
    nil, and the store is not asked for the boolean. *)
Theorem Reload_vprefix_env_wins m b :
  os_Getenv (m_world m) envVPrefix <> "" ->
  ParseBool (os_Getenv (m_world m) envVPrefix) = Ok b ->
  vPrefix (cfg_after Reload m) = Some b /\
  r_out (Reload m) = Done tt /\
  (EvBool configVPrefix ∉ r_events (Reload m)).
Proof.
  intros Hne Hp. apply nonempty_true in Hne.
  assert (Hm : vprefix_malformed (m_world m) = false)
    by (unfold vprefix_malformed; rewrite Hne, Hp; reflexivity).
  rewrite Reload_cfg_after, Reload_run. cbn [r_out r_events].
  split; [|split].
  - cbn. unfold bool_outcome. rewrite Hne, Hp. reflexivity.
  - unfold Reload_out. rewrite Hne, Hp. reflexivity.
  - unfold Reload_events, string_events, vprefix_events. rewrite Hm, Hne.
    destruct (nonempty (os_Getenv (m_world m) (envName sReleaseBranch))),
             (nonempty (os_Getenv (m_world m) (envName sVersionFile))),
             (nonempty (os_Getenv (m_world m) (envName sCommand))),
             (nonempty (os_Getenv (m_world m) (envName sTemplate)));
      intros Hin; elem_cases Hin; discriminate.
Qed.

End Reload_more.

(** ** More about [configValue] *)

(** X6: [String] never returns the hyphen, decoding twice is decoding
    once, and a value is [Empty] exactly when its raw text is the hyphen
    or the empty text. *)
Theorem String_never_sentinel (cv : configValue) :
  String_ cv <> "-" /\
  String_ (ConfigValue (String_ cv) (source cv)) = String_ cv /\
  (Empty cv = true <-> value cv = "-" \/ value cv = "").
Proof.
  destruct cv as [v src]. unfold Empty, String_. cbn [value source].
  destruct (String.eqb_spec v "-") as [E|E].
  - split; [discriminate|]. split; [reflexivity|].
    split; [auto|reflexivity].
  - split; [exact E|]. split.
    { apply String.eqb_neq in E. rewrite E. reflexivity. }
    split.
    + intros Hv. apply String.eqb_eq in Hv. auto.
    + intros [Hv|Hv]; [contradiction|]. subst. reflexivity.
Qed.

Section Reload_empty.
Context {World : Type} `{Externals World}.
Implicit Types (m : machine World) (s : setting).

(** X7: the hyphen counts as empty in the environment too.  A text
    setting resolved from a non-empty environment variable is [Empty]
    exactly when the variable is the hyphen. *)
Theorem Reload_env_hyphen_is_empty m s :
  is_string_setting s = true ->
  reached (m_world m) s = true ->
  os_Getenv (m_world m) (envName s) <> "" ->
  exists cv,
    field s (cfg_after Reload m) = Some (RString cv) /\
    source cv = srcEnv /\
    (Empty cv = true <-> os_Getenv (m_world m) (envName s) = "-").
Proof.
  intros Hs Hreach Hne.
  exists (ConfigValue (os_Getenv (m_world m) (envName s)) srcEnv).
  split; [|split; [reflexivity|]].
  - rewrite Reload_field, Hreach. unfold found.
    apply nonempty_true in Hne. rewrite Hne.
    destruct s; try discriminate; reflexivity.
  - unfold Empty, String_. cbn [value].
    destruct (String.eqb_spec (os_Getenv (m_world m) (envName s)) "-") as [E|E].
    + split; auto.
    + split; [|contradiction]. intros Hv. apply String.eqb_eq in Hv. contradiction.
Qed.

End Reload_empty.

(** ** More about the write path *)

Section Write_more.
Context {World : Type} `{Externals World}.
Implicit Types (m : machine World) (w : World) (x : setter) (s : setting).

Lemma ensure_file_run m :
  ensure_file m =
  let c := m_cfg m in
  if exists_ (m_world m) (conf c) then Run (Done tt) m [EvExists (conf c)]
  else
    let r := initializeFile m in
    Run (r_out r) (r_end r) (EvExists (conf c) :: r_events r).
Proof.
  destruct m as [c w].
  unfold ensure_file, bind, call, exists_conf, ret, throw. cbn -[initializeFile].
  destruct (exists_ w (conf c)); cbn -[initializeFile]; [reflexivity|].
  destruct (initializeFile _) as [[[]|?] ? ?]; cbn; rewrite ?app_nil_r; reflexivity.
Qed.

Lemma initializeFile_no_Do m : count_Do (r_events (initializeFile m)) = 0.
Proof.
  destruct (initializeFile_events m) as [E|E]; rewrite E; reflexivity.
Qed.

(** X8: when the file is absent and cannot be created, [set] returns
    the error of [initializeFile] and stops: the store is never asked
    to write, and the receiver is as it was. *)
Theorem set_creation_failure_no_write key value m e :
  exists_ (m_world m) (conf (m_cfg m)) = false ->
  r_out (initializeFile m) = Returned e ->
  r_out (set key value m) = Returned e /\
  r_events (set key value m) = EvExists (conf (m_cfg m)) :: r_events (initializeFile m) /\
  count_Do (r_events (set key value m)) = 0 /\
  cfg_after (set key value) m = m_cfg m.
Proof.
  intros Hex Hinit.
  assert (Hrun : set key value m =
                 Run (Returned e) (r_end (initializeFile m))
                     (EvExists (conf (m_cfg m)) :: r_events (initializeFile m))).
  { rewrite set_run, ensure_file_run. cbn zeta. rewrite Hex.
    cbn [r_out r_end r_events]. rewrite Hinit. reflexivity. }
  split; [rewrite Hrun; reflexivity|]. split; [rewrite Hrun; reflexivity|]. split.
  - rewrite Hrun. cbn [r_events]. unfold count_Do. cbn [List.filter is_Do].
    apply initializeFile_no_Do.
  - apply set_cfg.
Qed.

(** X9: [set] creates the file only when it is absent.  With the file
    present the first call after the existence check is the write
    itself; with the file absent (and creatable) the file is removed and
    written with the default content first, and the write follows. *)
Theorem set_first_calls key value m :
  let c := m_cfg m in
  let a := [key; encode value] in
  (exists_ (m_world m) (conf c) = true ->
   exists rest, r_events (set key value m) = EvExists (conf c) :: EvDo a :: rest) /\
  (exists_ (m_world m) (conf c) = false ->
   r_out (initializeFile m) = Done tt ->
   exists rest,
     r_events (set key value m) =
     (EvExists (conf c) :: recreation c ++ EvDo a :: rest)%list).
Proof.
  cbn zeta. split.
  - intros Hex. rewrite set_run, ensure_file_run. cbn zeta. rewrite Hex.
    cbn [r_out r_end r_events].
    destruct (gitconfig_Do _ _ _).1; cbn [r_events app]; [eexists; reflexivity|].
    destruct (r_out (initializeFile _)); cbn [r_events app]; eexists; reflexivity.
  - intros Hex Hinit. rewrite set_run, ensure_file_run. cbn zeta. rewrite Hex.
    cbn [r_out r_end r_events]. rewrite Hinit, (initializeFile_done m Hinit).
    unfold recreation. clear Hinit.
    destruct (gitconfig_Do _ _ _).1; cbn [r_events app]; [eexists; reflexivity|].
    destruct (r_out (initializeFile (Machine _ _))); cbn [r_events app];
      eexists; reflexivity.
Qed.

(** X10: the calls of [set].  [set] never reads the environment or the
    store; every file call is on [conf], every file write is the
    default content with mode 0666, every store call writes [key] with
    the encoded text; and the store is asked to write at most twice. *)
Theorem set_call_discipline key value m :
  Forall (set_call (m_cfg m) key value) (r_events (set key value m)) /\
  count_Do (r_events (set key value m)) <= 2.
Proof.
  destruct m as [c w]. unfold count_Do. unfold_go.
  write_cases; (split; [repeat constructor|cbn; lia]).
Qed.

(** X11: a setter never changes the field of another setting, whether
    it succeeds or fails. *)
Theorem setter_leaves_other_fields x m s :
  s <> setter_setting x ->
  field s (cfg_after (run_setter x) m) = field s (m_cfg m).
Proof.
  intros Hs. rewrite run_setter_cfg.
  destruct (r_out (set _ _ _)); [|reflexivity].
  destruct x, s; try reflexivity; contradiction.
Qed.

Lemma encode_String (v : string) (src src' : configSource) :
  String_ (ConfigValue (encode v) src') = String_ (ConfigValue v src).
Proof.
  unfold String_, encode. cbn [value].
  destruct (String.eqb_spec v ""); [subst; reflexivity|reflexivity].
Qed.

(** X12: what a text setter writes reads back the same.  After a
    successful [SetRelaseBranch] or [SetVersionFile] of any text, a
    [Reload] that finds the variable unset or empty and gets the
    written text back from the store resolves the setting to a value
    with the same [String] and [Empty] as the one the setter left in
    memory; only the source differs, [srcConfigFile] for [srcDetect]. *)
Theorem setter_reload_roundtrip x m w' :
  setter_setting x <> sVPrefix ->
  r_out (run_setter x m) = Done tt ->
  os_Getenv w' (envName (setter_setting x)) = "" ->
  gitconfig_Get w' (gitconfig (m_cfg m)) (configKey (setter_setting x))
    = Ok (encode (setter_text x)) ->
  exists cv cv',
    field (setter_setting x) (cfg_after (run_setter x) m) = Some (RString cv) /\
    field (setter_setting x)
      (cfg_after Reload (Machine (cfg_after (run_setter x) m) w')) = Some (RString cv') /\
    String_ cv' = String_ cv /\
    Empty cv' = Empty cv /\
    source cv = srcDetect /\ source cv' = srcConfigFile.
Proof.
  intros Hs Hout Henv Hget. rewrite run_setter_out in Hout.
  rewrite run_setter_cfg, Hout.
  exists (ConfigValue (setter_text x) srcDetect),
         (ConfigValue (encode (setter_text x)) srcConfigFile).
  assert (Hstr : String_ (ConfigValue (encode (setter_text x)) srcConfigFile)
                 = String_ (ConfigValue (setter_text x) srcDetect))
    by apply encode_String.
  split; [|split; [|split; [exact Hstr|split; [|split; reflexivity]]]].
  - destruct x; try reflexivity. contradiction.
  - rewrite Reload_field. cbn [m_cfg m_world].
    replace (reached w' (setter_setting x)) with true
      by (destruct x; try reflexivity; contradiction).
    replace (gitconfig (setter_assign x (m_cfg m))) with (gitconfig (m_cfg m))
      by (destruct x; reflexivity).
    unfold found, store_answer. apply nonempty_false in Henv. rewrite Henv.
    destruct x; cbn [setter_setting configKey] in *; try contradiction;
      rewrite Hget; reflexivity.
  - unfold Empty. rewrite Hstr. reflexivity.
Qed.

(** *** Whole runs *)

Lemma run_method_handle (o : method) m :
  conf (cfg_after (run_method o) m) = conf (m_cfg m) /\
  gitconfig (cfg_after (run_method o) m) = gitconfig (m_cfg m).
Proof.
  destruct o as [|x]; cbn [run_method].
  - rewrite Reload_cfg_after. split; reflexivity.
  - rewrite run_setter_cfg. destruct (r_out (set _ _ _)); [|split; reflexivity].
    destruct x; split; reflexivity.
Qed.

Lemma run_methods_handle (os : list method) m :
  conf (m_cfg (run_methods os m)) = conf (m_cfg m) /\
  gitconfig (m_cfg (run_methods os m)) = gitconfig (m_cfg m).
Proof.
  revert m. induction os as [|o os IH]; intros m; [split; reflexivity|].
  cbn [run_methods]. destruct (IH (r_end (run_method o m))) as [Hc Hg].
  destruct (run_method_handle o m) as [Hc' Hg']. unfold cfg_after in *.
  split; congruence.
Qed.

(** X13: the file binding is an invariant.  Whatever sequence of
    [Reload] and setter calls follows [newConfig], and whatever they
    return, the file that [set] checks and recreates and the file the
    store handle reads and writes are both [.tagpr], with the git path
    given to [newConfig]. *)
Theorem file_binding_invariant (gitPath : string) w (os : list method) :
  let c := m_cfg (run_methods os (r_end (newConfig gitPath w))) in
  conf c = defaultConfigFile /\
  gitconfig c = GitConfig gitPath defaultConfigFile /\
  conf c = File (gitconfig c).
Proof.
  cbn zeta. generalize (run_methods_handle os (r_end (newConfig gitPath w))).
  generalize (m_cfg (run_methods os (r_end (newConfig gitPath w)))) as c.
  intros c [Hc Hg]. unfold newConfig in Hc, Hg. rewrite Reload_run in Hc, Hg.
  cbn in Hc, Hg. rewrite Hc, Hg. repeat split.
Qed.

Lemma run_method_keeps_set (o : method) m s :
  is_Some (field s (m_cfg m)) -> is_Some (field s (cfg_after (run_method o) m)).
Proof.
  intros Hset. destruct o as [|x]; cbn [run_method].
  - rewrite Reload_field. destruct (if reached _ _ then _ else _); eauto.
  - rewrite run_setter_cfg. destruct (r_out (set _ _ _)); [|assumption].
    destruct x, s; cbn in *; eauto.
Qed.

(** X14: no method ever sets a field back to nil.  A setting that is
    resolved stays resolved through any sequence of [Reload] and setter
    calls, whatever they find and whatever they return. *)
Theorem fields_never_cleared (os : list method) m s :
  is_Some (field s (m_cfg m)) ->
  is_Some (field s (m_cfg (run_methods os m))).
Proof.
  revert m. induction os as [|o os IH]; intros m Hset; [exact Hset|].
  cbn [run_methods]. apply IH.
  apply (run_method_keeps_set o m s Hset).
Qed.

End Write_more.

Section Write_sentinel.
Context {World : Type} `{Externals World}.
Implicit Types (m : machine World).

(** X15: the empty text and the hyphen are one and the same to the
    write path.  [set] makes the same calls, leaves the same world and
    returns the same for both, so after a text setter the two cannot be
    told apart in the store; in memory the raw texts differ, and
    [String] gives the empty text for both. *)
Theorem set_empty_is_hyphen key m (src : configSource) :
  set key "" m = set key "-" m /\
  r_events (SetVersionFile "" m) = r_events (SetVersionFile "-" m) /\
  r_events (SetRelaseBranch "" m) = r_events (SetRelaseBranch "-" m) /\
  String_ (ConfigValue "" src) = String_ (ConfigValue "-" src).
Proof.
  assert (Hset : forall k, set k "" m = set k "-" m).
  { intros k. rewrite !set_run. reflexivity. }
  split; [apply Hset|]. split; [|split; [|reflexivity]].
  - change (SetVersionFile "") with (run_setter (CallSetVersionFile "")).
    change (SetVersionFile "-") with (run_setter (CallSetVersionFile "-")).
    rewrite !run_setter_events. cbn [setter_key setter_text]. rewrite Hset. reflexivity.
  - change (SetRelaseBranch "") with (run_setter (CallSetRelaseBranch "")).
    change (SetRelaseBranch "-") with (run_setter (CallSetRelaseBranch "-")).
    rewrite !run_setter_events. cbn [setter_key setter_text]. rewrite Hset. reflexivity.
Qed.

End Write_sentinel.

Section Reload_order.
Context {World : Type} `{Externals World}.
Implicit Types (m : machine World) (s : setting).

Lemma malformed_nonempty (w : World) :
  vprefix_malformed w = true -> nonempty (os_Getenv w envVPrefix) = true.
Proof. unfold vprefix_malformed. destruct (nonempty _); [reflexivity|discriminate]. Qed.

(** X16: the environment comes first, setting by setting.  [Reload]
    asks the store for a setting's key exactly when it reaches the
    setting's block and the setting's environment variable is unset or
    empty. *)
Theorem Reload_asks_store_iff_env_empty m s :
  store_event s ∈ r_events (Reload m) <->
  os_Getenv (m_world m) (envName s) = "" /\ reached (m_world m) s = true.
Proof.
  split.
  - rewrite Reload_run. cbn [r_events].
    unfold Reload_events, string_events, vprefix_events, reached.
    cbn [envName configKey].
    destruct (vprefix_malformed (m_world m)) eqn:Hm;
      [apply malformed_nonempty in Hm|];
      destruct (nonempty (os_Getenv (m_world m) envReleaseBranch)) eqn:Hrb,
               (nonempty (os_Getenv (m_world m) envVersionFile)) eqn:Hvf,
               (nonempty (os_Getenv (m_world m) envVPrefix)) eqn:Hvp,
               (nonempty (os_Getenv (m_world m) envCommand)) eqn:Hcmd,
               (nonempty (os_Getenv (m_world m) envTemplate)) eqn:Htm;
      try discriminate Hm;
      intros Hin; elem_cases Hin; destruct s; try discriminate Hin;
      (split; [apply nonempty_false; assumption|reflexivity]).
  - intros [Henv Hreach]. rewrite Reload_run. cbn [r_events].
    apply store_event_asked; assumption.
Qed.

End Reload_order.

(** ** The further properties in the simulated world *)

Lemma Reload_store_fallback_witness :
  let m := Cases.template_in_store in
  os_Getenv (m_world m) (envName sTemplate) = "" /\
  reached (m_world m) sTemplate = true /\
  store_answer (m_world m) (gitconfig (m_cfg m)) sTemplate
    = Some (RString (ConfigValue "tmpl.md" srcConfigFile)) /\
  store_event sTemplate ∈ r_events (Reload m) /\
  field sTemplate (cfg_after Reload m) =
    Some (RString (ConfigValue "tmpl.md" srcConfigFile)).
Proof.
  cbv zeta.
  assert (Henv : os_Getenv (m_world Cases.template_in_store) (envName sTemplate) = "")
    by reflexivity.
  assert (Hreach : reached (m_world Cases.template_in_store) sTemplate = true)
    by reflexivity.
  assert (Hans : store_answer (m_world Cases.template_in_store)
                   (gitconfig (m_cfg Cases.template_in_store)) sTemplate
                 = Some (RString (ConfigValue "tmpl.md" srcConfigFile)))
    by reflexivity.
  destruct (Reload_store_fallback Cases.template_in_store sTemplate _
              Henv Hreach Hans) as (Hask & Hfield & _).
  split; [exact Henv|]. split; [exact Hreach|]. split; [exact Hans|].
  split; [exact Hask|exact Hfield].
Defined.

Lemma Reload_vprefix_env_wins_witness :
  let m := Cases.vprefix_in_env in
  os_Getenv (m_world m) envVPrefix <> "" /\
  ParseBool (os_Getenv (m_world m) envVPrefix) = Ok false /\
  gitconfig_Bool (m_world m) (gitconfig (m_cfg m)) configVPrefix = Ok true /\
  vPrefix (cfg_after Reload m) = Some false /\
  r_out (Reload m) = Done tt.
Proof.
  cbv zeta.
  assert (Hne : os_Getenv (m_world Cases.vprefix_in_env) envVPrefix <> "")
    by (vm_compute; discriminate).
  assert (Hp : ParseBool (os_Getenv (m_world Cases.vprefix_in_env) envVPrefix)
               = Ok false) by reflexivity.
  destruct (Reload_vprefix_env_wins Cases.vprefix_in_env false Hne Hp)
    as (Hv & Hout & _).
  split; [exact Hne|]. split; [exact Hp|]. split; [reflexivity|].
  split; [exact Hv|exact Hout].
Defined.

Lemma Reload_env_hyphen_is_empty_witness :
  let m := Cases.hyphen_in_env in
  is_string_setting sVersionFile = true /\
  reached (m_world m) sVersionFile = true /\
  os_Getenv (m_world m) (envName sVersionFile) <> "" /\
  exists cv,
    field sVersionFile (cfg_after Reload m) = Some (RString cv) /\
    source cv = srcEnv /\
    (Empty cv = true <-> os_Getenv (m_world m) (envName sVersionFile) = "-").
Proof.
  cbv zeta.
  assert (Hne : os_Getenv (m_world Cases.hyphen_in_env) (envName sVersionFile) <> "")
    by (vm_compute; discriminate).
  assert (Hreach : reached (m_world Cases.hyphen_in_env) sVersionFile = true)
    by reflexivity.
  split; [reflexivity|]. split; [exact Hreach|]. split; [exact Hne|].
  exact (Reload_env_hyphen_is_empty Cases.hyphen_in_env sVersionFile
           eq_refl Hreach Hne).
Defined.

Lemma set_creation_failure_no_write_witness :
  let m := Cases.read_only_dir in
  let e := ExternalError "permission denied" in
  exists_ (m_world m) (conf (m_cfg m)) = false /\
  r_out (initializeFile m) = Returned e /\
  r_out (set configReleaseBranch "main" m) = Returned e /\
  r_events (set configReleaseBranch "main" m) =
    EvExists (conf (m_cfg m)) :: r_events (initializeFile m) /\
  count_Do (r_events (set configReleaseBranch "main" m)) = 0.
Proof.
  cbv zeta.
  assert (Hex : exists_ (m_world Cases.read_only_dir)
                  (conf (m_cfg Cases.read_only_dir)) = false) by reflexivity.
  assert (Hinit : r_out (initializeFile Cases.read_only_dir)
                  = Returned (ExternalError "permission denied")) by reflexivity.
  destruct (set_creation_failure_no_write configReleaseBranch "main"
              Cases.read_only_dir _ Hex Hinit) as (Hout & Hev & Hcount & _).
  split; [exact Hex|]. split; [exact Hinit|]. split; [exact Hout|].
  split; [exact Hev|exact Hcount].
Defined.

Lemma set_first_calls_witness :
  (exists rest,
     r_events (set configVPrefix "true" Cases.file_present) =
     EvExists (conf (m_cfg Cases.file_present))
       :: EvDo [configVPrefix; encode "true"] :: rest) /\
  (exists rest,
     r_events (set configVPrefix "true" Scenario.fresh) =
     (EvExists (conf (m_cfg Scenario.fresh)) :: recreation (m_cfg Scenario.fresh)
        ++ EvDo [configVPrefix; encode "true"] :: rest)%list).
Proof.
  assert (Hyes : exists_ (m_world Cases.file_present)
                   (conf (m_cfg Cases.file_present)) = true) by reflexivity.
  assert (Hno : exists_ (m_world Scenario.fresh)
                  (conf (m_cfg Scenario.fresh)) = false) by reflexivity.
  assert (Hinit : r_out (initializeFile Scenario.fresh) = Done tt) by reflexivity.
  split.
  - exact (proj1 (set_first_calls configVPrefix "true" Cases.file_present) Hyes).
  - exact (proj2 (set_first_calls configVPrefix "true" Scenario.fresh) Hno Hinit).
Defined.

Lemma setter_leaves_other_fields_witness :
  let x := CallSetVersionFile "VERSION" in
  sReleaseBranch <> setter_setting x /\
  r_out (run_setter x Scenario.detected) = Done tt /\
  field sReleaseBranch (cfg_after (run_setter x) Scenario.detected) =
    field sReleaseBranch (m_cfg Scenario.detected).
Proof.
  cbv zeta.
  assert (Hs : sReleaseBranch <> setter_setting (CallSetVersionFile "VERSION"))
    by discriminate.
  split; [exact Hs|]. split; [reflexivity|].
  exact (setter_leaves_other_fields (CallSetVersionFile "VERSION")
           Scenario.detected sReleaseBranch Hs).
Defined.

Lemma setter_reload_roundtrip_witness :
  let x := CallSetRelaseBranch "" in
  let m := Scenario.fresh in
  let w' := world_after (run_setter x) m in
  setter_setting x <> sVPrefix /\
  r_out (run_setter x m) = Done tt /\
  os_Getenv w' (envName (setter_setting x)) = "" /\
  gitconfig_Get w' (gitconfig (m_cfg m)) (configKey (setter_setting x))
    = Ok (encode (setter_text x)) /\
  exists cv cv',
    field (setter_setting x) (cfg_after (run_setter x) m) = Some (RString cv) /\
    field (setter_setting x)
      (cfg_after Reload (Machine (cfg_after (run_setter x) m) w')) = Some (RString cv') /\
    String_ cv' = String_ cv /\
    Empty cv' = Empty cv /\
    source cv = srcDetect /\ source cv' = srcConfigFile.
Proof.
  cbv zeta.
  set (x := CallSetRelaseBranch "").
  set (w' := world_after (run_setter x) Scenario.fresh).
  assert (Hs : setter_setting x <> sVPrefix) by discriminate.
  assert (Hout : r_out (run_setter x Scenario.fresh) = Done tt) by reflexivity.
  assert (Henv : os_Getenv w' (envName (setter_setting x)) = "") by reflexivity.
  assert (Hget : gitconfig_Get w' (gitconfig (m_cfg Scenario.fresh))
                   (configKey (setter_setting x)) = Ok (encode (setter_text x)))
    by reflexivity.
  split; [exact Hs|]. split; [exact Hout|]. split; [exact Henv|].
  split; [exact Hget|].
  exact (setter_reload_roundtrip x Scenario.fresh w' Hs Hout Henv Hget).
Defined.

Lemma fields_never_cleared_witness :
  let os := [CallReload; CallSetter (CallSetVPrefix true); CallReload] in
  is_Some (field sReleaseBranch (m_cfg Scenario.detected)) /\
  is_Some (field sReleaseBranch (m_cfg (run_methods os Scenario.detected))).
Proof.
  cbv zeta.
  assert (Hset : is_Some (field sReleaseBranch (m_cfg Scenario.detected)))
    by (eexists; reflexivity).
  split; [exact Hset|].
  exact (fields_never_cleared
           [CallReload; CallSetter (CallSetVPrefix true); CallReload]
           Scenario.detected sReleaseBranch Hset).
Defined.
